(** * Model metadata of sqlmesh: validation and cron cadence

    A shallow embedding of [sqlmesh/core/model/meta.py]: the class
    [ModelMeta], its field validators, the root validator, the derived
    accessors and the cron inference and navigation methods.

    Conventions.
    - A Python call that may raise is a function into [result]:
      [Return v] for a normal return, [Raise e] for an exception.
    - Timestamps are POSIX seconds in [Z].  The floats that croniter hands
      out are whole numbers of seconds, so their differences are exact.
    - Collaborators that live outside [meta.py] (croniter, sqlglot,
      [sqlmesh.core.model.kind], [sqlmesh.utils]) are taken as parameters,
      bundled in records, with their contracts stated as separate laws. *)

From Stdlib Require Import ZArith List String Ascii Bool Lia Sorted.
From Stdlib Require Import Decimal DecimalString DecimalZ.
Import ListNotations.

Local Open Scope Z_scope.
Local Open Scope string_scope.

(** ** Python runtime fragments *)

Module Py.

(** The exceptions that can leave the code under study.  [ConfigError] is
    [sqlmesh.utils.errors.ConfigError]; [ValueError] and [TypeError] are the
    builtins, as is [KeyError]; [ValidationError] is what pydantic raises once a constructor
    has recorded at least one failed field, each entry being the location
    and the message of the recorded exception; [CroniterBadCronError] is
    croniter's parse failure and [ParseError] is sqlglot's, neither of
    which derives from ValueError. *)
Inductive Exception : Type :=
| ConfigError (msg : string)
| ValueError (msg : string)
| TypeError (msg : string)
| KeyError (key : string)
| CroniterBadCronError (expr : string)
| ParseError (msg : string)
| ValidationError (errors : list (string * string)).

Inductive result (A : Type) : Type :=
| Return (v : A)
| Raise (e : Exception).
Arguments Return {A} v.
Arguments Raise {A} e.

Definition bind {A B} (m : result A) (k : A -> result B) : result B :=
  match m with
  | Return v => k v
  | Raise e => Raise e
  end.

Definition is_ConfigError (e : Exception) : bool :=
  match e with ConfigError _ => true | _ => false end.

(** pydantic (v1) catches exactly ValueError, TypeError and AssertionError
    inside a validator and records them; any other exception aborts the
    constructor and reaches the caller as it is. *)
Definition recorded_by_pydantic (e : Exception) : bool :=
  match e with
  | ValueError _ | TypeError _ | ValidationError _ => true
  | ConfigError _ | KeyError _ | CroniterBadCronError _ | ParseError _ =>
      false
  end.

(** [str(e)] of an exception, as pydantic reports it. *)
Definition message (e : Exception) : string :=
  match e with
  | ConfigError msg | ValueError msg | TypeError msg | ParseError msg => msg
  | KeyError key => key
  | CroniterBadCronError expr => expr
  | ValidationError _ => "validation error"
  end.

(** A dict as its items in insertion order, keys unique. *)
Fixpoint dict_get {V} (k : string) (d : list (string * V)) : option V :=
  match d with
  | [] => None
  | (k', v) :: r => if String.eqb k k' then Some v else dict_get k r
  end.

Fixpoint dict_set {V} (k : string) (v : V) (d : list (string * V))
  : list (string * V) :=
  match d with
  | [] => [(k, v)]
  | (k', v') :: r =>
      if String.eqb k k' then (k, v) :: r else (k', v') :: dict_set k v r
  end.

(** *** [str(n)] and [int(s)] on integers *)

(** The decimal numeral of [n]. *)
Definition str_int (n : Z) : string := NilZero.string_of_int (Z.to_int n).

(** CPython bounds the conversion between an [int] and its decimal text:
    more than [int_max_str_digits] digits (the default of
    [sys.get_int_max_str_digits()]) is a ValueError, in either direction. *)
Definition int_max_str_digits : Z := 4300.

Definition limit_error (detail : string) : Exception :=
  ValueError ("Exceeds the limit (4300 digits) for integer string conversion"
              ++ detail
              ++ "; use sys.set_int_max_str_digits() to increase the limit").

(** The number of decimal digits of [n]. *)
Definition digit_count (n : Z) : Z :=
  Z.of_nat (String.length (str_int (Z.abs n))).

(** [str(n)] for an integer, also as an f-string formats it. *)
Definition format_int (n : Z) : result string :=
  if (int_max_str_digits <? digit_count n)%Z then Raise (limit_error "")
  else Return (str_int n).

Definition is_space (c : ascii) : bool :=
  match c with
  | " "%char | "009"%char | "010"%char | "011"%char | "012"%char
  | "013"%char => true
  | _ => false
  end.

Definition is_digit (c : ascii) : bool :=
  match c with
  | "0"%char | "1"%char | "2"%char | "3"%char | "4"%char
  | "5"%char | "6"%char | "7"%char | "8"%char | "9"%char => true
  | _ => false
  end.

Fixpoint all_digits (s : string) : bool :=
  match s with
  | EmptyString => true
  | String c r => is_digit c && all_digits r
  end.

Fixpoint lstrip (s : string) : string :=
  match s with
  | String c r => if is_space c then lstrip r else s
  | EmptyString => EmptyString
  end.

Fixpoint rstrip (s : string) : string :=
  match s with
  | EmptyString => EmptyString
  | String c r =>
      match rstrip r with
      | EmptyString => if is_space c then EmptyString else String c EmptyString
      | r' => String c r'
      end
  end.

Definition strip (s : string) : string := rstrip (lstrip s).

(** The digit part of an integer literal: digits, with single underscores
    allowed between two digits.  [after_digit] tells whether the previous
    character was a digit.  The result is the literal without its
    underscores. *)
Fixpoint digit_part (after_digit : bool) (s : string) : option string :=
  match s with
  | EmptyString => if after_digit then Some EmptyString else None
  | String c r =>
      if is_digit c then option_map (String c) (digit_part true r)
      else if (Ascii.eqb c "_" && after_digit)%bool then digit_part false r
      else None
  end.

(** The longest prefix of digits and underscores, and what follows it. *)
Fixpoint span_digits (s : string) : string * string :=
  match s with
  | String c r =>
      if (is_digit c || Ascii.eqb c "_")%bool
      then let '(literal, trailing) := span_digits r in
           (String c literal, trailing)
      else (EmptyString, s)
  | EmptyString => (EmptyString, EmptyString)
  end.

Definition invalid_literal (s : string) : Exception :=
  ValueError ("invalid literal for int() with base 10: " ++ s).

(** [int(s)] for a string [s]: surrounding whitespace is dropped, one sign
    is accepted, then comes a digit part, whose digits are counted against
    the limit before anything that follows it is looked at, and nothing may
    follow it. *)
Definition int_of_str (s : string) : result Z :=
  let body := strip s in
  let '(negative, rest) :=
    match body with
    | String "-"%char r => (true, r)
    | String "+"%char r => (false, r)
    | _ => (false, body)
    end in
  let '(literal, trailing) := span_digits rest in
  match digit_part false literal with
  | Some ds =>
      let count := Z.of_nat (String.length ds) in
      if (int_max_str_digits <? count)%Z
      then Raise (limit_error (": value has " ++ str_int count ++ " digits"))
      else
        match trailing, NilEmpty.uint_of_string ds with
        | EmptyString, Some d =>
            Return (if negative then - Z.of_uint d else Z.of_uint d)
        | _, _ => Raise (invalid_literal s)
        end
  | None => Raise (invalid_literal s)
  end.

(** [min] over a sequence: the smallest element, ValueError on the empty
    sequence. *)
Definition min (l : list Z) : result Z :=
  match l with
  | [] => Raise (ValueError "min() arg is an empty sequence")
  | x :: r => Return (fold_left Z.min r x)
  end.

End Py.

Import Py.

(** ** sqlglot expressions

    The parsed-SQL nodes that a model definition can carry, as far as the
    validators look into them.  [ModelKindExp] is the node class
    [sqlmesh.core.dialect.ModelKind], which is an [Expression] too; [Neg]
    is the unary minus, which is how the parser reads a negative number. *)

Module Exp.

#[warnings="-register-all"]
Inductive Expression : Type :=
| Literal (this : string) (is_string : bool)
| Identifier (this : string)
| Property (this : string) (value : option Expression)
| ColumnDef (this : string) (kind : Expression)
| DataType (this : string)
| Tuple (expressions : list Expression)
| Array (expressions : list Expression)
| Schema (expressions : list Expression)
| ModelKindExp (this : string) (expressions : list Expression)
| Neg (this : Expression).

(** [e.name], that is [e.text("this")]: the [this] argument when it is
    text, the text of a literal or identifier that stands there, and the
    empty string otherwise.  So the name of a negated literal is the
    literal's text, without the sign. *)
Definition name (e : Expression) : string :=
  match e with
  | Literal this _ | Identifier this | Property this _ | ColumnDef this _
  | ModelKindExp this _ => this
  | Neg (Literal this _) | Neg (Identifier this) => this
  | Neg _ | DataType _ | Tuple _ | Array _ | Schema _ => ""
  end.

(** [prop.args.get("value")] *)
Definition arg_value (e : Expression) : option Expression :=
  match e with
  | Property _ value => value
  | _ => None
  end.

(** [column.args["kind"]]: a missing key is a KeyError, which pydantic does
    not record. *)
Definition arg_kind (e : Expression) : option Expression :=
  match e with
  | ColumnDef _ kind => Some kind
  | _ => None
  end.

Definition is_string (e : Expression) : bool :=
  match e with
  | Literal _ b => b
  | _ => false
  end.

End Exp.

Import Exp.

(** Plain values and expressions: what a field of a raw definition holds. *)
Inductive Scalar : Type :=
| PyNone
| PyInt (n : Z)
| PyStr (s : string)
| PyExp (e : Expression).

(** [str(v)] for a plain value; the code never applies it to an
    expression, for which it takes the name. *)
Definition str (v : Scalar) : result string :=
  match v with
  | PyNone => Return "None"
  | PyInt n => format_int n
  | PyStr s => Return s
  | PyExp e => Return (name e)
  end.

(** ** Model kinds ([sqlmesh.core.model.kind]) *)

Record TimeColumn : Type := { column : string }.

(** The class [ModelKind] and its two subclasses.  [N] is the enumeration
    [ModelKindName], [U] the fields of the unique-key variant. *)
Inductive ModelKind (N U : Type) : Type :=
| Generic (name : N)
| IncrementalByTimeRange (time_column : option TimeColumn)
| IncrementalByUniqueKey (unique_key : U).
Arguments Generic {N U} name.
Arguments IncrementalByTimeRange {N U} time_column.
Arguments IncrementalByUniqueKey {N U} unique_key.

(** A keyword argument of a kind constructor: an enumeration member, a
    plain string, or a property value of a parsed kind node. *)
Inductive KwArg (N : Type) : Type :=
| KwName (n : N)
| KwStr (s : string)
| KwExp (e : option Expression).
Arguments KwName {N} n.
Arguments KwStr {N} s.
Arguments KwExp {N} e.

(** What [meta.py] imports from [sqlmesh.core.model.kind]: the closed
    enumeration [ModelKindName] (a [str] enumeration: [members] in
    declaration order, each with its string [value]), its two members that
    have a dedicated class, the capability flag, the printed form of a
    kind, the constructors of the two dedicated classes, and the default
    kind [IncrementalByTimeRange()]. *)
Record Kinds : Type := {
  ModelKindName : Type;
  members : list ModelKindName;
  value : ModelKindName -> string;
  INCREMENTAL_BY_TIME_RANGE : ModelKindName;
  INCREMENTAL_BY_UNIQUE_KEY : ModelKindName;
  UniqueKey : Type;
  is_materialized : ModelKind ModelKindName UniqueKey -> bool;
  kind_str : ModelKind ModelKindName UniqueKey -> string;
  IncrementalByTimeRange_init :
    list (string * KwArg ModelKindName) ->
    result (ModelKind ModelKindName UniqueKey);
  IncrementalByUniqueKey_init :
    list (string * KwArg ModelKindName) ->
    result (ModelKind ModelKindName UniqueKey);
  IncrementalByTimeRange_default : ModelKind ModelKindName UniqueKey
}.

Definition Kind (K : Kinds) : Type := ModelKind (ModelKindName K) (UniqueKey K).
Definition Kwargs (K : Kinds) : Type := list (string * KwArg (ModelKindName K)).

(** ** croniter

    [expand] is the constructor [croniter(expr)] ([None] when it raises),
    [fires e t] tells whether the schedule [e] fires at second [t],
    [next_fire e t] and [prev_fire e t] are what [get_next] and [get_prev]
    return when the cursor stands at [t]. *)
Record Croniter : Type := {
  Expanded : Type;
  expand : string -> option Expanded;
  fires : Expanded -> Z -> bool;
  next_fire : Expanded -> Z -> Z;
  prev_fire : Expanded -> Z -> Z
}.

(** The contract of the library: [get_next] is the earliest firing time
    strictly after the cursor, [get_prev] the latest strictly before it,
    and the alias [@daily] and the three canonical expressions are
    accepted. *)
Record CroniterLaws (C : Croniter) : Prop := {
  next_fires : forall e t, fires C e (next_fire C e t) = true;
  next_after : forall e t, t < next_fire C e t;
  next_least : forall e t u,
    fires C e u = true -> t < u -> next_fire C e t <= u;
  prev_fires : forall e t, fires C e (prev_fire C e t) = true;
  prev_before : forall e t, prev_fire C e t < t;
  prev_greatest : forall e t u,
    fires C e u = true -> u < t -> u <= prev_fire C e t;
  expand_daily : expand C "@daily" <> None;
  expand_minute : expand C "* * * * *" <> None;
  expand_hour : expand C "0 * * * *" <> None;
  expand_day : expand C "0 0 * * *" <> None
}.

(** A schedule that fires exactly at the seconds [o + k * p]. *)
Definition fires_every (C : Croniter) (e : Expanded C) (p o : Z) : Prop :=
  forall t, fires C e t = true <-> (t - o) mod p = 0.

(** ** Dates ([sqlmesh.utils.date]) and sqlglot helpers *)

(** [to_datetime v] is the outcome of the call on a time-like value:
    [Return (Some t)] is the datetime of the instant [t], [Return None] a
    result that is false in a boolean context, [Raise e] the exception the
    helper raises on a value it cannot read.  [preserve_time_like_kind v ts]
    expresses the instant [ts] in the representation of [v]. *)
Record Dates : Type := {
  to_datetime : Scalar -> result (option Z);
  preserve_time_like_kind : Scalar -> Z -> Scalar
}.

(** The instant [ts], expressed in the representation of [v], reads back
    as [ts].  A representation that cannot hold every instant (a calendar
    date) has instants that do not read back. *)
Definition reads_back (D : Dates) (v : Scalar) (ts : Z) : Prop :=
  to_datetime D (preserve_time_like_kind D v ts) = Return (Some ts).

(** The representation of [v] holds every instant. *)
Definition keeps_instants (D : Dates) (v : Scalar) : Prop :=
  forall ts, reads_back D v ts.

(** [sql e] is [e.sql()], [table_name s] is [exp.table_name(s)], which
    raises on text that is not a table reference, [parse_data_type s] is
    [maybe_parse(s, into=exp.DataType)] on text. *)
Record Sqlglot : Type := {
  sql : Expression -> string;
  table_name : string -> result string;
  parse_data_type : string -> result Expression
}.

(** ** The class [ModelMeta] *)

Inductive IntervalUnit : Type := DAY | HOUR | MINUTE.

Definition IntervalUnit_eqb (a b : IntervalUnit) : bool :=
  match a, b with
  | DAY, DAY | HOUR, HOUR | MINUTE, MINUTE => true
  | _, _ => false
  end.

(** Modelled from the spec: [sqlmesh.utils.unique] is not part of
    [meta.py]; the spec describes its result as de-duplicated and
    order-stable, so it keeps the first occurrence of every element, in
    order of first occurrence. *)
Fixpoint unique (l : list string) : list string :=
  match l with
  | [] => []
  | x :: r => x :: filter (fun y => negb (String.eqb x y)) (unique r)
  end.

Section Meta.

Context (K : Kinds) (C : Croniter) (D : Dates) (G : Sqlglot).

(** *** Raw field values *)

(** The kind of a raw definition: a kind object, a dict, or anything else
    (a parsed kind node, another expression, a plain value). *)
Inductive RawKind : Type :=
| KindObj (k : Kind K)
| KindDict (v : Kwargs K)
| KindValue (v : Scalar).

Inductive RawSeq : Type :=
| SeqValue (v : Scalar)
| SeqList (items : list string).

Inductive RawColumns : Type :=
| ColValue (v : Scalar)
| ColDict (items : list (string * Scalar))
| ColTyped (items : list (string * Expression)).

(** *** Kind resolution *)

(** [ModelKindName(name)]: lookup of a member by value. *)
Definition ModelKindName_call (name : string) : result (ModelKindName K) :=
  match find (fun m => String.eqb (value K m) name) (members K) with
  | Some m => Return m
  | None => Raise (ValueError ("'" ++ name ++ "' is not a valid ModelKindName"))
  end.

(** [name] is not the value of any member of [ModelKindName]. *)
Definition unrecognized (name : string) : Prop :=
  forall m, In m (members K) -> value K m <> name.

(** Modelled from the spec: the constructor of the generic class
    [ModelKind] lives in [kind.py]; the generic variant carries just the
    name, which has to be a member of the enumeration or the value of
    one.  The spec does not say what the constructor makes of keywords
    other than [name]; they are not looked at here. *)
Definition ModelKind_init (kwargs : Kwargs K) : result (Kind K) :=
  match dict_get "name" kwargs with
  | None => Raise (ValidationError [("name", "field required")])
  | Some (KwName n) => Return (Generic n)
  | Some (KwStr s) =>
      match find (fun m => String.eqb (value K m) s) (members K) with
      | Some n => Return (Generic n)
      | None =>
          Raise (ValidationError
                   [("name", "value is not a valid enumeration member")])
      end
  | Some (KwExp _) =>
      Raise (ValidationError
               [("name", "value is not a valid enumeration member")])
  end.

(** [x == member] for a dict entry [x = v.get("name")]. *)
Definition kw_eq (x : option (KwArg (ModelKindName K)))
  (m : ModelKindName K) : bool :=
  match x with
  | Some (KwName n) => String.eqb (value K n) (value K m)
  | Some (KwStr s) => String.eqb s (value K m)
  | _ => false
  end.

Definition is_ValueError (e : Exception) : bool :=
  match e with
  | ValueError _ | ValidationError _ => true
  | _ => false
  end.

Definition _model_kind_validator (v : RawKind) : result (Kind K) :=
  match v with
  | KindObj k => Return k
  | KindValue (PyExp (ModelKindExp name expressions)) =>
      let props : Kwargs K :=
        fold_left
          (fun d prop => dict_set (Exp.name prop) (KwExp (arg_value prop)) d)
          expressions [] in
      if String.eqb name (value K (INCREMENTAL_BY_TIME_RANGE K)) then
        IncrementalByTimeRange_init K props
      else if String.eqb name (value K (INCREMENTAL_BY_UNIQUE_KEY K)) then
        IncrementalByUniqueKey_init K props
      else
        bind (ModelKindName_call name)
          (fun n => ModelKind_init (dict_set "name" (KwName n) props))
  | KindDict v =>
      if kw_eq (dict_get "name" v) (INCREMENTAL_BY_TIME_RANGE K) then
        IncrementalByTimeRange_init K v
      else if kw_eq (dict_get "name" v) (INCREMENTAL_BY_UNIQUE_KEY K) then
        IncrementalByUniqueKey_init K v
      else ModelKind_init v
  | KindValue v =>
      bind (match v with PyExp e => Return (Exp.name e) | _ => str v end)
        (fun name =>
      match bind (ModelKindName_call name)
              (fun n => ModelKind_init [("name", KwName n)]) with
      | Return k => Return k
      | Raise e =>
          if is_ValueError e
          then Raise (ConfigError ("Invalid model kind '" ++ name ++ "'"))
          else Raise e
      end)
  end.

(** *** Field validators *)

Definition _value_or_tuple_validator (v : RawSeq) : RawSeq :=
  match v with
  | SeqValue (PyExp (Tuple expressions)) => SeqList (map Exp.name expressions)
  | SeqValue (PyExp e) => SeqList [Exp.name e]
  | _ => v
  end.

Definition _string_validator (v : Scalar) : result (option string) :=
  match v with
  | PyExp e => Return (Some (Exp.name e))
  | PyNone => Return None
  | _ => bind (str v) (fun s => Return (Some s))
  end.

Definition cron_error (c : string) : Exception :=
  ConfigError ("Invalid cron expression '" ++ c ++ "'").

Definition _cron_validator (v : Scalar) : result (option string) :=
  bind (_string_validator v) (fun cron =>
  match cron with
  | Some (String _ _ as c) =>
      match expand C c with
      | Some _ => Return cron
      | None => Raise (cron_error c)
      end
  | _ => Return cron
  end).

Definition _date_validator (v : Scalar) : result Scalar :=
  let v := match v with PyExp e => PyStr (Exp.name e) | _ => v end in
  bind (to_datetime D v) (fun datetime =>
  match datetime with
  | None =>
      bind (str v) (fun text =>
      Raise (ConfigError ("'" ++ text ++ "' not a valid date time")))
  | Some _ => Return v
  end).

(** [int(v)] for a plain value. *)
Definition int (v : Scalar) : result Z :=
  match v with
  | PyInt n => Return n
  | PyStr s => int_of_str s
  | PyNone | PyExp _ =>
      Raise (TypeError "int() argument must be a string or a number")
  end.

Definition batch_size_error (n : Z) : Exception :=
  ConfigError ("Invalid batch size " ++ str_int n ++
               ". The value should be greater than 0").

(** The message of the ConfigError is an f-string over the integer, so it
    is formatted, which can fail, before the ConfigError is raised. *)
Definition _int_validator (v : Scalar) : result (option Z) :=
  bind (match v with
        | PyExp e => bind (int_of_str (Exp.name e)) (fun n => Return (Some n))
        | PyNone => Return None
        | _ => bind (int v) (fun n => Return (Some n))
        end)
    (fun batch_size =>
       match batch_size with
       | Some n =>
           if (n <=? 0)%Z
           then bind (format_int n) (fun _ => Raise (batch_size_error n))
           else Return batch_size
       | None => Return batch_size
       end).

Definition _columns_validator (v : RawColumns) : result RawColumns :=
  match v with
  | ColValue (PyExp (Schema expressions)) =>
      bind
        (fold_left
           (fun acc column =>
              bind acc (fun d =>
              match arg_kind column with
              | Some kind => Return (dict_set (Exp.name column) kind d)
              | None => Raise (KeyError "kind")
              end))
           expressions (Return []))
        (fun d => Return (ColTyped d))
  | ColDict items =>
      bind
        (fold_left
           (fun acc item =>
              bind acc (fun d =>
              bind (match snd item with
                    | PyExp e => Return e
                    | data_type => bind (str data_type) (parse_data_type G)
                    end)
                (fun t => Return (dict_set (fst item) t d))))
           items (Return []))
        (fun d => Return (ColTyped d))
  | _ => Return v
  end.

(** The names of the tables, element by element; the first call of
    [table_name] that raises ends the comprehension. *)
Fixpoint table_names (expressions : list Expression)
  : result (list string) :=
  match expressions with
  | [] => Return []
  | table :: rest =>
      bind (table_name G (if is_string table then Exp.name table
                          else sql G table)) (fun t =>
      bind (table_names rest) (fun ts => Return (t :: ts)))
  end.

Definition _depends_on_validator (v : RawSeq) : result RawSeq :=
  match v with
  | SeqValue (PyExp (Array expressions))
  | SeqValue (PyExp (Tuple expressions)) =>
      bind (table_names expressions) (fun ts => Return (SeqList (unique ts)))
  | SeqValue (PyExp e) =>
      bind (table_name G (sql G e)) (fun t => Return (SeqList [t]))
  | _ => Return v
  end.

(** *** Field types

    What pydantic does with the value a [pre] validator hands over. *)

Definition str_field (v : Scalar) : result string :=
  match v with
  | PyStr s => Return s
  | PyInt n => format_int n
  | PyNone => Raise (TypeError "none is not an allowed value")
  | PyExp _ => Raise (TypeError "str type expected")
  end.

Definition required {A} (v : option A) : result A :=
  match v with
  | Some a => Return a
  | None => Raise (TypeError "none is not an allowed value")
  end.

Definition list_field (v : RawSeq) : result (option (list string)) :=
  match v with
  | SeqList l => Return (Some l)
  | SeqValue PyNone => Return None
  | SeqValue _ => Raise (TypeError "value is not a valid list")
  end.

Definition set_field (v : RawSeq) : result (option (list string)) :=
  match v with
  | SeqList l => Return (Some (unique l))
  | SeqValue PyNone => Return None
  | SeqValue _ => Raise (TypeError "value is not a valid set")
  end.

Definition dict_field (v : RawColumns)
  : result (option (list (string * Expression))) :=
  match v with
  | ColTyped d => Return (Some d)
  | ColValue PyNone => Return None
  | _ => Raise (TypeError "value is not a valid dict")
  end.

(** *** Construction *)

Record ModelMeta : Type := {
  name : string;
  kind : Kind K;
  dialect : string;
  cron : string;
  owner : option string;
  description : option string;
  start : option Scalar;
  batch_size : option Z;
  storage_format : option string;
  partitioned_by_ : option (list string);
  depends_on_ : option (list string);
  columns_to_types_ : option (list (string * Expression))
}.

(** The keyword arguments of [ModelMeta(...)]; [None] is an absent key. *)
Record RawModel : Type := {
  raw_name : option Scalar;
  raw_kind : option RawKind;
  raw_dialect : option Scalar;
  raw_cron : option Scalar;
  raw_owner : option Scalar;
  raw_description : option Scalar;
  raw_start : option Scalar;
  raw_batch_size : option Scalar;
  raw_storage_format : option Scalar;
  raw_partitioned_by : option RawSeq;
  raw_depends_on : option RawSeq;
  raw_columns : option RawColumns
}.

(** The dict [values] that the root validator receives: a field that
    failed validation has no entry. *)
Record Values : Type := {
  v_name : option string;
  v_kind : option (Kind K);
  v_dialect : option string;
  v_cron : option string;
  v_owner : option (option string);
  v_description : option (option string);
  v_start : option (option Scalar);
  v_batch_size : option (option Z);
  v_storage_format : option (option string);
  v_partitioned_by_ : option (option (list string));
  v_depends_on_ : option (option (list string));
  v_columns_to_types_ : option (option (list (string * Expression)))
}.

Definition _kind_validator (values : Values) : result Values :=
  match v_kind values with
  | Some kind =>
      if negb (is_materialized K kind) then
        match v_partitioned_by_ values with
        | Some (Some (_ :: _)) =>
            Raise (ValueError ("partitioned_by field cannot be set for " ++
                               kind_str K kind ++ " models"))
        | _ => Return values
        end
      else Return values
  | None => Return values
  end.

Definition Errors : Type := list (string * string).

(** One field of the constructor: an absent key takes the default (or is
    reported when there is none), a present one goes through its
    validator; an exception that pydantic catches is recorded under the
    field's location, any other one leaves the constructor. *)
Definition field {R A} (loc : string) (raw : option R) (default : option A)
  (validator : R -> result A) (errors : Errors)
  : result (option A * Errors) :=
  match raw with
  | None =>
      match default with
      | Some d => Return (Some d, errors)
      | None => Return (None, (errors ++ [(loc, "field required")])%list)
      end
  | Some v =>
      match validator v with
      | Return a => Return (Some a, errors)
      | Raise e =>
          if recorded_by_pydantic e
          then Return (None, (errors ++ [(loc, message e)])%list)
          else Raise e
      end
  end.

(** A field came out of the constructor with the value [a]: the key was
    absent and [a] is the default, or the validator returned [a]. *)
Definition field_ok {R A} (raw : option R) (default : option A)
  (validator : R -> result A) (a : A) : Prop :=
  match raw with
  | None => default = Some a
  | Some v => validator v = Return a
  end.

Definition opt_str (v : Scalar) : result (option string) :=
  _string_validator v.

(** Field by field, in declaration order. *)
Definition validate_fields (raw : RawModel) : result (Values * Errors) :=
  bind (field "name" (raw_name raw) None str_field [])
    (fun '(name, errors) =>
  bind (field "kind" (raw_kind raw)
          (Some (IncrementalByTimeRange_default K))
          _model_kind_validator errors)
    (fun '(kind, errors) =>
  bind (field "dialect" (raw_dialect raw) (Some "")
          (fun v => bind (_string_validator v) required) errors)
    (fun '(dialect, errors) =>
  bind (field "cron" (raw_cron raw) (Some "@daily")
          (fun v => bind (_cron_validator v) required) errors)
    (fun '(cron, errors) =>
  bind (field "owner" (raw_owner raw) (Some None) opt_str errors)
    (fun '(owner, errors) =>
  bind (field "description" (raw_description raw) (Some None) opt_str errors)
    (fun '(description, errors) =>
  bind (field "start" (raw_start raw) (Some None)
          (fun v => bind (_date_validator v)
                      (fun v => Return (match v with
                                        | PyNone => None
                                        | _ => Some v
                                        end)))
          errors)
    (fun '(start, errors) =>
  bind (field "batch_size" (raw_batch_size raw) (Some None)
          _int_validator errors)
    (fun '(batch_size, errors) =>
  bind (field "storage_format" (raw_storage_format raw) (Some None)
          opt_str errors)
    (fun '(storage_format, errors) =>
  bind (field "partitioned_by" (raw_partitioned_by raw) (Some None)
          (fun v => list_field (_value_or_tuple_validator v)) errors)
    (fun '(partitioned_by_, errors) =>
  bind (field "depends_on" (raw_depends_on raw) (Some None)
          (fun v => bind (_depends_on_validator v) set_field) errors)
    (fun '(depends_on_, errors) =>
  bind (field "columns" (raw_columns raw) (Some None)
          (fun v => bind (_columns_validator v) dict_field) errors)
    (fun '(columns_to_types_, errors) =>
  Return
    ({| v_name := name; v_kind := kind; v_dialect := dialect;
        v_cron := cron; v_owner := owner; v_description := description;
        v_start := start; v_batch_size := batch_size;
        v_storage_format := storage_format;
        v_partitioned_by_ := partitioned_by_;
        v_depends_on_ := depends_on_;
        v_columns_to_types_ := columns_to_types_ |}, errors))))))))))))).

Definition of_values (values : Values) : option ModelMeta :=
  match values with
  | {| v_name := Some name; v_kind := Some kind; v_dialect := Some dialect;
       v_cron := Some cron; v_owner := Some owner;
       v_description := Some description; v_start := Some start;
       v_batch_size := Some batch_size;
       v_storage_format := Some storage_format;
       v_partitioned_by_ := Some partitioned_by_;
       v_depends_on_ := Some depends_on_;
       v_columns_to_types_ := Some columns_to_types_ |} =>
      Some {| name := name; kind := kind; dialect := dialect; cron := cron;
              owner := owner; description := description; start := start;
              batch_size := batch_size; storage_format := storage_format;
              partitioned_by_ := partitioned_by_;
              depends_on_ := depends_on_;
              columns_to_types_ := columns_to_types_ |}
  | _ => None
  end.

(** The constructor [ModelMeta]: the fields, then the root validator (which runs
    also after a field has failed), then either the record or pydantic's
    ValidationError with everything recorded. *)
Definition ModelMeta_init (raw : RawModel) : result ModelMeta :=
  bind (validate_fields raw)
    (fun '(values, errors) =>
  bind (match _kind_validator values with
        | Return values => Return (values, errors)
        | Raise e =>
            if recorded_by_pydantic e
            then Return (values, (errors ++ [("__root__", message e)])%list)
            else Raise e
        end)
    (fun '(values, errors) =>
  match errors, of_values values with
  | [], Some m => Return m
  | _, _ => Raise (ValidationError errors)
  end)).

Definition values_of (m : ModelMeta) : Values :=
  {| v_name := Some (name m); v_kind := Some (kind m);
     v_dialect := Some (dialect m); v_cron := Some (cron m);
     v_owner := Some (owner m); v_description := Some (description m);
     v_start := Some (start m); v_batch_size := Some (batch_size m);
     v_storage_format := Some (storage_format m);
     v_partitioned_by_ := Some (partitioned_by_ m);
     v_depends_on_ := Some (depends_on_ m);
     v_columns_to_types_ := Some (columns_to_types_ m) |}.

(** Every field of [raw] validates to the value that [m] holds. *)
Definition fields_accepted (raw : RawModel) (m : ModelMeta) : Prop :=
  field_ok (raw_name raw) None str_field (name m)
  /\ field_ok (raw_kind raw) (Some (IncrementalByTimeRange_default K))
       _model_kind_validator (kind m)
  /\ field_ok (raw_dialect raw) (Some "")
       (fun v => bind (_string_validator v) required) (dialect m)
  /\ field_ok (raw_cron raw) (Some "@daily")
       (fun v => bind (_cron_validator v) required) (cron m)
  /\ field_ok (raw_owner raw) (Some None) opt_str (owner m)
  /\ field_ok (raw_description raw) (Some None) opt_str (description m)
  /\ field_ok (raw_start raw) (Some None)
       (fun v => bind (_date_validator v)
                   (fun v => Return (match v with
                                     | PyNone => None
                                     | _ => Some v
                                     end)))
       (start m)
  /\ field_ok (raw_batch_size raw) (Some None) _int_validator (batch_size m)
  /\ field_ok (raw_storage_format raw) (Some None) opt_str
       (storage_format m)
  /\ field_ok (raw_partitioned_by raw) (Some None)
       (fun v => list_field (_value_or_tuple_validator v))
       (partitioned_by_ m)
  /\ field_ok (raw_depends_on raw) (Some None)
       (fun v => bind (_depends_on_validator v) set_field) (depends_on_ m)
  /\ field_ok (raw_columns raw) (Some None)
       (fun v => bind (_columns_validator v) dict_field)
       (columns_to_types_ m).

(** What it takes for [ModelMeta(...)] to return the record [m]: the
    fields validate to what [m] holds and the root validator lets the
    values pass. *)
Definition accepted (raw : RawModel) (m : ModelMeta) : Prop :=
  fields_accepted raw m
  /\ _kind_validator (values_of m) = Return (values_of m).

(** *** Derived accessors *)

Definition time_column (self : ModelMeta) : option TimeColumn :=
  match kind self with
  | IncrementalByTimeRange time_column => time_column
  | _ => None
  end.

(** [self.partitioned_by_ or []] *)
Definition explicit (self : ModelMeta) : list string :=
  match partitioned_by_ self with Some l => l | None => [] end.

Definition partitioned_by (self : ModelMeta) : list string :=
  let time_column :=
    match time_column self with
    | Some tc => [column tc]
    | None => []
    end in
  unique (time_column ++ explicit self)%list.

(** *** Cron inference *)

(** A croniter object: the expanded expression and the cursor [cur]. *)
Record cursor : Type := { schedule : Expanded C; cur : Z }.

(** [croniter(expr)], started at [start_time] (the clock reading when none
    is given). *)
Definition croniter_init (expr : string) (start_time : Z) : result cursor :=
  match expand C expr with
  | Some e => Return {| schedule := e; cur := start_time |}
  | None => Raise (CroniterBadCronError expr)
  end.

(** [get_next] and [get_prev] return the firing time and move the cursor
    there; [set_current] moves the cursor. *)
Definition get_next (c : cursor) : Z * cursor :=
  let t := next_fire C (schedule c) (cur c) in
  (t, {| schedule := schedule c; cur := t |}).

Definition get_prev (c : cursor) : Z * cursor :=
  let t := prev_fire C (schedule c) (cur c) in
  (t, {| schedule := schedule c; cur := t |}).

Definition set_current (c : cursor) (t : Z) : cursor :=
  {| schedule := schedule c; cur := t |}.

(** [[schedule.get_next() for _ in range(n)]] *)
Fixpoint take_samples (n : nat) (c : cursor) : list Z :=
  match n with
  | O => []
  | S n' => let '(t, c') := get_next c in t :: take_samples n' c'
  end.

(** [[b - a for a, b in zip(samples, samples[1:])]] *)
Definition gaps (samples : list Z) : list Z :=
  map (fun '(a, b) => b - a) (combine samples (tl samples)).

(** [now] is the reading of the clock at the call: [croniter(self.cron)]
    starts there. *)
Definition interval_unit (self : ModelMeta) (now : Z) (sample_size : Z)
  : result IntervalUnit :=
  bind (croniter_init (cron self) now) (fun schedule =>
  let samples := take_samples (Z.to_nat sample_size) schedule in
  bind (Py.min (gaps samples)) (fun min_interval =>
  if (86400 <=? min_interval)%Z then Return DAY
  else if (3600 <=? min_interval)%Z then Return HOUR
  else Return MINUTE)).

Definition normalized_cron (self : ModelMeta) (now : Z) : result string :=
  bind (interval_unit self now 10) (fun unit =>
  if IntervalUnit_eqb unit MINUTE then Return "* * * * *"
  else if IntervalUnit_eqb unit HOUR then Return "0 * * * *"
  else if IntervalUnit_eqb unit DAY then Return "0 0 * * *"
  else Return "").

(** The unit of a gap of [g] seconds, and the canonical expression of a
    unit. *)
Definition classify (g : Z) : IntervalUnit :=
  if (86400 <=? g)%Z then DAY else if (3600 <=? g)%Z then HOUR else MINUTE.

Definition canonical (u : IntervalUnit) : string :=
  match u with
  | MINUTE => "* * * * *"
  | HOUR => "0 * * * *"
  | DAY => "0 0 * * *"
  end.

(** *** Cron navigation

    The attribute [_croniter] is the only mutable part of a [ModelMeta]:
    every method takes its content and returns, next to its outcome, the
    content it leaves behind.  The object that [croniter] returns is the
    cached one, so what the caller does to it is done to the cache. *)

Definition Cache : Type := option cursor.

Definition croniter (self : ModelMeta) (now : Z) (value : Scalar)
  (_croniter : Cache) : result cursor * Cache :=
  match
    match _croniter with
    | None =>
        bind (normalized_cron self now) (fun expr => croniter_init expr now)
    | Some c => Return c
    end
  with
  | Raise e => (Raise e, _croniter)
  | Return c =>
      match to_datetime D value with
      | Raise e => (Raise e, Some c)
      | Return None =>
          (Raise (TypeError "set_current() needs a point in time"), Some c)
      | Return (Some t) =>
          let c := set_current c t in (Return c, Some c)
      end
  end.

Definition cron_next (self : ModelMeta) (now : Z) (value : Scalar)
  (_croniter : Cache) : result Scalar * Cache :=
  match croniter self now value _croniter with
  | (Raise e, cache) => (Raise e, cache)
  | (Return c, _) =>
      let '(t, c) := get_next c in
      (Return (preserve_time_like_kind D value t), Some c)
  end.

Definition cron_prev (self : ModelMeta) (now : Z) (value : Scalar)
  (_croniter : Cache) : result Scalar * Cache :=
  match croniter self now value _croniter with
  | (Raise e, cache) => (Raise e, cache)
  | (Return c, _) =>
      let '(t, c) := get_prev c in
      (Return (preserve_time_like_kind D value t), Some c)
  end.

Definition cron_floor (self : ModelMeta) (now : Z) (value : Scalar)
  (_croniter : Cache) : result Scalar * Cache :=
  match cron_next self now value _croniter with
  | (Raise e, cache) => (Raise e, cache)
  | (Return next, cache) =>
      match croniter self now next cache with
      | (Raise e, cache) => (Raise e, cache)
      | (Return c, _) =>
          let '(t, c) := get_prev c in
          (Return (preserve_time_like_kind D value t), Some c)
      end
  end.

(** The schedule that a query navigates: the cached one, or the one that
    the first use builds from the normalized cron. *)
Definition navigator_schedule (self : ModelMeta) (now : Z) (cache : Cache)
  : result (Expanded C) :=
  match cache with
  | Some c => Return (schedule c)
  | None =>
      bind (normalized_cron self now) (fun expr =>
      bind (croniter_init expr now) (fun c => Return (schedule c)))
  end.

(** The inferred cadence of [self] is the same at every clock reading. *)
Definition clock_independent (self : ModelMeta) : Prop :=
  forall now now', normalized_cron self now = normalized_cron self now'.


(** The three queries of the navigator, and a run of calls on one object,
    each with the clock reading at its time. *)
Inductive Query : Type := Next | Prev | Floor.

Definition query (self : ModelMeta) (q : Query) (now : Z) (value : Scalar)
  (cache : Cache) : result Scalar * Cache :=
  match q with
  | Next => cron_next self now value cache
  | Prev => cron_prev self now value cache
  | Floor => cron_floor self now value cache
  end.

(** The outcome of a query as a function of the schedule it navigates and
    of its argument alone. *)
Definition answer (sched : result (Expanded C)) (q : Query) (value : Scalar)
  : result Scalar :=
  bind sched (fun e =>
  match to_datetime D value with
  | Raise ex => Raise ex
  | Return None => Raise (TypeError "set_current() needs a point in time")
  | Return (Some t) =>
      match q with
      | Next => Return (preserve_time_like_kind D value (next_fire C e t))
      | Prev => Return (preserve_time_like_kind D value (prev_fire C e t))
      | Floor =>
          match to_datetime D
                  (preserve_time_like_kind D value (next_fire C e t)) with
          | Raise ex => Raise ex
          | Return None =>
              Raise (TypeError "set_current() needs a point in time")
          | Return (Some t') =>
              Return (preserve_time_like_kind D value (prev_fire C e t'))
          end
      end
  end).

Definition run (self : ModelMeta) (calls : list (Query * Z * Scalar))
  (cache : Cache) : Cache :=
  fold_left (fun cache '(q, now, value) => snd (query self q now value cache))
    calls cache.

(** The instant that a query on the instant [t] answers with, on the
    schedule [e]. *)
Definition instant_of (e : Expanded C) (q : Query) (t : Z) : Z :=
  match q with
  | Next => next_fire C e t
  | Prev => prev_fire C e t
  | Floor => prev_fire C e (next_fire C e t)
  end.

(** Coarseness of a unit: MINUTE below HOUR below DAY. *)
Definition coarseness (u : IntervalUnit) : Z :=
  match u with
  | MINUTE => 0
  | HOUR => 1
  | DAY => 2
  end.

End Meta.

Arguments KindObj {K} k.
Arguments KindDict {K} v.
Arguments KindValue {K} v.
Arguments name {K} m.
Arguments kind {K} m.
Arguments dialect {K} m.
Arguments cron {K} m.
Arguments owner {K} m.
Arguments description {K} m.
Arguments start {K} m.
Arguments batch_size {K} m.
Arguments storage_format {K} m.
Arguments partitioned_by_ {K} m.
Arguments depends_on_ {K} m.
Arguments columns_to_types_ {K} m.
Arguments time_column {K} self.
Arguments partitioned_by {K} self.
Arguments explicit {K} self.
Arguments schedule {C} c.
Arguments cur {C} c.

(** ** Reference collaborators

    One concrete choice for each collaborator, used to run the definitions
    on concrete inputs. *)

Module Ref.

(** *** A cron library for schedules with a fixed period

    It reads the five-field expressions whose last three fields are [*]
    and whose firing times are evenly spaced, and the aliases [@daily] and
    [@hourly]; a schedule fires at the seconds [offset + k * period]. *)

Record Periodic : Type := { period : positive; offset : Z }.

Fixpoint split_on_space (s : string) (word : string) : list string :=
  match s with
  | EmptyString => [word]
  | String " "%char r => word :: split_on_space r ""
  | String c r => split_on_space r (word ++ String c "")
  end.

Definition number (s : string) : option Z :=
  match s with
  | EmptyString => None
  | _ => option_map Z.of_uint (NilEmpty.uint_of_string s)
  end.

Definition every (secs off : Z) : option Periodic :=
  match secs with
  | Zpos p => Some {| period := p; offset := off |}
  | _ => None
  end.

Definition periodic_expand (expr : string) : option Periodic :=
  match expr with
  | "@daily" => every 86400 0
  | "@hourly" => every 3600 0
  | _ =>
      match split_on_space expr "" with
      | [m; h; "*"; "*"; "*"] =>
          match m, h with
          | "*", "*" => every 60 0
          | String "*" (String "/" n), "*" =>
              match number n with
              | Some k =>
                  if ((0 <? k) && (60 mod k =? 0))%Z then every (60 * k) 0
                  else None
              | None => None
              end
          | _, "*" =>
              match number m with
              | Some i => if (i <? 60)%Z then every 3600 (60 * i) else None
              | None => None
              end
          | _, _ =>
              match number m, number h with
              | Some i, Some j =>
                  if ((i <? 60) && (j <? 24))%Z
                  then every 86400 (3600 * j + 60 * i)
                  else None
              | _, _ => None
              end
          end
      | _ => None
      end
  end.

Definition periodic_fires (e : Periodic) (t : Z) : bool :=
  ((t - offset e) mod Zpos (period e) =? 0)%Z.

Definition periodic_next (e : Periodic) (t : Z) : Z :=
  t - (t - offset e) mod Zpos (period e) + Zpos (period e).

Definition periodic_prev (e : Periodic) (t : Z) : Z :=
  let r := (t - offset e) mod Zpos (period e) in
  if (r =? 0)%Z then t - Zpos (period e) else t - r.

Definition croniter : Croniter :=
  {| Expanded := Periodic;
     expand := periodic_expand;
     fires := periodic_fires;
     next_fire := periodic_next;
     prev_fire := periodic_prev |}.

(** *** Kinds

    Modelled from the spec: [kind.py] is not part of [meta.py].  The spec
    names the kinds INCREMENTAL_BY_TIME_RANGE (with a time column, "ds" in
    its example) and VIEW (not materialized), and says that two names have
    a dedicated variant; FULL stands for the other generic names. *)

Inductive KindName : Type :=
| TIME_RANGE | UNIQUE_KEY | FULL | VIEW.

Definition kind_value (n : KindName) : string :=
  match n with
  | TIME_RANGE => "INCREMENTAL_BY_TIME_RANGE"
  | UNIQUE_KEY => "INCREMENTAL_BY_UNIQUE_KEY"
  | FULL => "FULL"
  | VIEW => "VIEW"
  end.

Definition kind_name (k : ModelKind KindName (list string)) : KindName :=
  match k with
  | Generic n => n
  | IncrementalByTimeRange _ => TIME_RANGE
  | IncrementalByUniqueKey _ => UNIQUE_KEY
  end.

Definition materialized (k : ModelKind KindName (list string)) : bool :=
  match kind_name k with
  | VIEW => false
  | _ => true
  end.

Definition time_range_init (kwargs : list (string * KwArg KindName))
  : result (ModelKind KindName (list string)) :=
  match dict_get "time_column" kwargs with
  | Some (KwStr s) => Return (IncrementalByTimeRange (Some {| column := s |}))
  | Some (KwExp (Some e)) =>
      Return (IncrementalByTimeRange (Some {| column := Exp.name e |}))
  | Some _ =>
      Raise (ValidationError [("time_column", "invalid time column")])
  | None => Return (IncrementalByTimeRange (Some {| column := "ds" |}))
  end.

Definition unique_key_init (kwargs : list (string * KwArg KindName))
  : result (ModelKind KindName (list string)) :=
  match dict_get "unique_key" kwargs with
  | Some (KwStr s) => Return (IncrementalByUniqueKey [s])
  | Some (KwExp (Some (Tuple es))) =>
      Return (IncrementalByUniqueKey (map Exp.name es))
  | Some (KwExp (Some e)) => Return (IncrementalByUniqueKey [Exp.name e])
  | _ => Raise (ValidationError [("unique_key", "field required")])
  end.

Definition kinds : Kinds :=
  {| ModelKindName := KindName;
     members := [TIME_RANGE; UNIQUE_KEY; FULL; VIEW];
     value := kind_value;
     INCREMENTAL_BY_TIME_RANGE := TIME_RANGE;
     INCREMENTAL_BY_UNIQUE_KEY := UNIQUE_KEY;
     UniqueKey := list string;
     is_materialized := materialized;
     kind_str := fun k => "name=" ++ kind_value (kind_name k);
     IncrementalByTimeRange_init := time_range_init;
     IncrementalByUniqueKey_init := unique_key_init;
     IncrementalByTimeRange_default :=
       IncrementalByTimeRange (Some {| column := "ds" |}) |}.

(** *** Dates

    Modelled from the spec: [sqlmesh.utils.date] is not part of [meta.py].
    The spec has a time-like value be a date, a timestamp or a formatted
    string, and has the result come back in the representation family of
    the input.  Here an integer is a timestamp in seconds, a text of the
    form YYYY-MM-DD is a calendar date, which denotes midnight UTC of that
    day, and any other text is the decimal text of a timestamp.  An instant
    is expressed as a date for a date, as decimal text for another text and
    as an integer otherwise.  A date has no time of day, so an instant
    expressed as a date keeps its day only.  A value that cannot be read
    makes the helper raise. *)

(** Days since 1970-01-01 of a day of the civil calendar, and back. *)
Definition days_from_civil (y m d : Z) : Z :=
  let y := if (m <=? 2)%Z then y - 1 else y in
  let era := y / 400 in
  let yoe := y - era * 400 in
  let doy := (153 * (if (2 <? m)%Z then m - 3 else m + 9) + 2) / 5 + d - 1 in
  let doe := yoe * 365 + yoe / 4 - yoe / 100 + doy in
  era * 146097 + doe - 719468.

Definition civil_from_days (days : Z) : Z * Z * Z :=
  let z := days + 719468 in
  let era := z / 146097 in
  let doe := z - era * 146097 in
  let yoe := (doe - doe / 1460 + doe / 36524 - doe / 146096) / 365 in
  let doy := doe - (365 * yoe + yoe / 4 - yoe / 100) in
  let mp := (5 * doy + 2) / 153 in
  let d := doy - (153 * mp + 2) / 5 + 1 in
  let m := if (mp <? 10)%Z then mp + 3 else mp - 9 in
  (yoe + era * 400 + (if (m <=? 2)%Z then 1 else 0), m, d).

(** [n] in decimal, padded with zeros to [width] characters. *)
Definition padded (width : nat) (n : Z) : string :=
  let text := str_int n in
  (string_of_list_ascii
     (repeat "0"%char (width - String.length text)) ++ text)%string.

Definition date_text (days : Z) : string :=
  let '(y, m, d) := civil_from_days days in
  padded 4 y ++ "-" ++ padded 2 m ++ "-" ++ padded 2 d.

(** The day that a text of the form YYYY-MM-DD names, when it is a day of
    the calendar. *)
Definition date_days (s : string) : option Z :=
  match s with
  | String y1 (String y2 (String y3 (String y4 (String "-"
      (String m1 (String m2 (String "-" (String d1 (String d2
         EmptyString))))))))) =>
      match number (String y1 (String y2 (String y3 (String y4 "")))),
            number (String m1 (String m2 "")),
            number (String d1 (String d2 "")) with
      | Some y, Some m, Some d =>
          let days := days_from_civil y m d in
          if String.eqb (date_text days) s then Some days else None
      | _, _, _ => None
      end
  | _ => None
  end.

Definition could_not_convert (text : string) : Exception :=
  ValueError ("Could not convert `" ++ text ++ "` to datetime.").

Definition instant_of_text (s : string) : result (option Z) :=
  match date_days s with
  | Some days => Return (Some (86400 * days))
  | None =>
      match int_of_str s with
      | Return n => Return (Some n)
      | Raise _ => Raise (could_not_convert s)
      end
  end.

Definition epoch_of (v : Scalar) : result (option Z) :=
  match v with
  | PyInt n => Return (Some n)
  | PyStr s => instant_of_text s
  | PyExp e => instant_of_text (Exp.name e)
  | PyNone =>
      Raise (TypeError "float() argument must be a string or a real number")
  end.

Definition like (v : Scalar) (ts : Z) : Scalar :=
  match v with
  | PyStr s =>
      match date_days s with
      | Some _ => PyStr (date_text (ts / 86400))
      | None => PyStr (str_int ts)
      end
  | _ => PyInt ts
  end.

Definition dates : Dates :=
  {| to_datetime := epoch_of; preserve_time_like_kind := like |}.

(** *** sqlglot

    The SQL of a string literal is the text in quotes, that of a negation
    the minus sign before the SQL of its operand, and that of the other
    nodes their name; a table reference is made of letters, digits,
    underscores and dots, and any other text is refused. *)

Fixpoint sql_of (e : Expression) : string :=
  match e with
  | Literal this true => "'" ++ this ++ "'"
  | Neg this => "-" ++ sql_of this
  | _ => Exp.name e
  end.

Definition is_word (c : ascii) : bool :=
  let n := N_of_ascii c in
  (is_digit c || Ascii.eqb c "_" || Ascii.eqb c "."
   || ((65 <=? n)%N && (n <=? 90)%N)
   || ((97 <=? n)%N && (n <=? 122)%N))%bool.

Fixpoint all_words (s : string) : bool :=
  match s with
  | EmptyString => true
  | String c r => (is_word c && all_words r)%bool
  end.

Definition table_reference (s : string) : result string :=
  match s with
  | EmptyString => Raise (ValueError "Cannot parse ")
  | _ =>
      if all_words s then Return s
      else Raise (ParseError ("Invalid expression / Unexpected token: " ++ s))
  end.

Definition sqlglot : Sqlglot :=
  {| sql := sql_of;
     table_name := table_reference;
     parse_data_type := fun s => Return (DataType s) |}.

(** A raw definition of the model [db.events] with the given kind, cron,
    batch size and partition columns, and nothing else. *)
Definition definition (k : option (RawKind kinds)) (c b : option Scalar)
  (p : option RawSeq) : RawModel kinds :=
  {| raw_name := Some (PyStr "db.events"); raw_kind := k;
     raw_dialect := None; raw_cron := c; raw_owner := None;
     raw_description := None; raw_start := None; raw_batch_size := b;
     raw_storage_format := None; raw_partitioned_by := p;
     raw_depends_on := None; raw_columns := None |}.

(** The record of the model [db.events] with the cron [c] and everything
    else at its default. *)
Definition model (c : string) : ModelMeta kinds :=
  {| name := "db.events"; kind := IncrementalByTimeRange_default kinds;
     dialect := ""; cron := c; owner := None; description := None;
     start := None; batch_size := None; storage_format := None;
     partitioned_by_ := None; depends_on_ := None;
     columns_to_types_ := None |}.

Definition init := ModelMeta_init kinds croniter dates sqlglot.

End Ref.

(** * Properties *)

Local Open Scope Z_scope.

(** ** Integers and their decimal text *)

Section IntText.

Lemma is_digit_not_space c : is_digit c = true -> is_space c = false.
Proof.
  destruct c as [[] [] [] [] [] [] [] []]; simpl; congruence.
Qed.

Lemma is_digit_not_sign c :
  is_digit c = true -> c <> "-"%char /\ c <> "+"%char.
Proof.
  destruct c as [[] [] [] [] [] [] [] []]; simpl; intros H; try discriminate H;
    split; discriminate.
Qed.

Lemma string_of_uint_digits d :
  all_digits (NilEmpty.string_of_uint d) = true.
Proof. induction d; simpl; auto. Qed.

Lemma lstrip_digits s : all_digits s = true -> lstrip s = s.
Proof.
  destruct s as [|c r]; simpl; [reflexivity|].
  intros H. apply andb_prop in H as [Hc _].
  now rewrite (is_digit_not_space c Hc).
Qed.

Lemma rstrip_digits s : all_digits s = true -> rstrip s = s.
Proof.
  induction s as [|c r IH]; simpl; [reflexivity|].
  intros H. apply andb_prop in H as [Hc Hr].
  rewrite (IH Hr). destruct r; [|reflexivity].
  now rewrite (is_digit_not_space c Hc).
Qed.

Lemma digit_part_digits s :
  all_digits s = true -> digit_part true s = Some s.
Proof.
  induction s as [|c r IH]; simpl; [reflexivity|].
  intros H. apply andb_prop in H as [Hc Hr].
  now rewrite Hc, (IH Hr).
Qed.

Lemma digit_part_start c r :
  all_digits (String c r) = true ->
  digit_part false (String c r) = Some (String c r).
Proof.
  simpl. intros H. apply andb_prop in H as [Hc Hr].
  now rewrite Hc, (digit_part_digits r Hr).
Qed.

Lemma span_digits_digits s :
  all_digits s = true -> span_digits s = (s, EmptyString).
Proof.
  induction s as [|c r IH]; simpl; [reflexivity|].
  intros H. apply andb_prop in H as [Hc Hr].
  now rewrite Hc, (IH Hr).
Qed.

Lemma rstrip_minus c r :
  all_digits (String c r) = true ->
  rstrip (String "-" (String c r)) = String "-" (String c r).
Proof.
  intros Hd.
  change (rstrip (String "-" (String c r)))
    with (match rstrip (String c r) with
          | EmptyString => String "-" EmptyString
          | r' => String "-" r'
          end).
  now rewrite (rstrip_digits _ Hd).
Qed.

(** What [int] makes of an unsigned numeral, with or without a minus sign
    before it: the digits are counted first, then read. *)
Lemma int_of_str_numeral c r :
  all_digits (String c r) = true ->
  forall negative : bool,
  int_of_str (if negative then String "-" (String c r) else String c r)
  = let count := Z.of_nat (String.length (String c r)) in
    if int_max_str_digits <? count
    then Raise (limit_error (": value has " ++ str_int count ++ " digits"))
    else match NilEmpty.uint_of_string (String c r) with
         | Some d => Return (if negative then - Z.of_uint d else Z.of_uint d)
         | None =>
             Raise (invalid_literal
                      (if negative then String "-" (String c r)
                       else String c r))
         end.
Proof.
  intros Hd negative.
  assert (Hc : is_digit c = true) by (simpl in Hd; now apply andb_prop in Hd).
  destruct negative.
  - unfold int_of_str, strip.
    assert (Hl : lstrip (String "-" (String c r)) = String "-" (String c r))
      by reflexivity.
    rewrite Hl, (rstrip_minus c r Hd). cbv zeta iota beta.
    rewrite (span_digits_digits _ Hd), (digit_part_start _ _ Hd).
    reflexivity.
  - unfold int_of_str, strip.
    rewrite (lstrip_digits _ Hd), (rstrip_digits _ Hd).
    destruct c as [[] [] [] [] [] [] [] []]; simpl in Hc; try discriminate Hc;
      cbv zeta iota beta;
      rewrite (span_digits_digits _ Hd), (digit_part_start _ _ Hd);
      reflexivity.
Qed.

Lemma string_of_uint_shape d :
  exists c r d',
    NilZero.string_of_uint d = String c r
    /\ all_digits (String c r) = true
    /\ NilEmpty.uint_of_string (String c r) = Some d'
    /\ Z.of_uint d' = Z.of_uint d.
Proof.
  destruct d as [|d|d|d|d|d|d|d|d|d|d].
  - exists "0"%char, EmptyString, (D0 Nil). repeat split.
  - exists "0"%char, (NilEmpty.string_of_uint d), (D0 d).
    split; [reflexivity|]. split; [apply (string_of_uint_digits (D0 d))|].
    split; [apply (NilEmpty.usu (D0 d))|reflexivity].
  - exists "1"%char, (NilEmpty.string_of_uint d), (D1 d).
    split; [reflexivity|]. split; [apply (string_of_uint_digits (D1 d))|].
    split; [apply (NilEmpty.usu (D1 d))|reflexivity].
  - exists "2"%char, (NilEmpty.string_of_uint d), (D2 d).
    split; [reflexivity|]. split; [apply (string_of_uint_digits (D2 d))|].
    split; [apply (NilEmpty.usu (D2 d))|reflexivity].
  - exists "3"%char, (NilEmpty.string_of_uint d), (D3 d).
    split; [reflexivity|]. split; [apply (string_of_uint_digits (D3 d))|].
    split; [apply (NilEmpty.usu (D3 d))|reflexivity].
  - exists "4"%char, (NilEmpty.string_of_uint d), (D4 d).
    split; [reflexivity|]. split; [apply (string_of_uint_digits (D4 d))|].
    split; [apply (NilEmpty.usu (D4 d))|reflexivity].
  - exists "5"%char, (NilEmpty.string_of_uint d), (D5 d).
    split; [reflexivity|]. split; [apply (string_of_uint_digits (D5 d))|].
    split; [apply (NilEmpty.usu (D5 d))|reflexivity].
  - exists "6"%char, (NilEmpty.string_of_uint d), (D6 d).
    split; [reflexivity|]. split; [apply (string_of_uint_digits (D6 d))|].
    split; [apply (NilEmpty.usu (D6 d))|reflexivity].
  - exists "7"%char, (NilEmpty.string_of_uint d), (D7 d).
    split; [reflexivity|]. split; [apply (string_of_uint_digits (D7 d))|].
    split; [apply (NilEmpty.usu (D7 d))|reflexivity].
  - exists "8"%char, (NilEmpty.string_of_uint d), (D8 d).
    split; [reflexivity|]. split; [apply (string_of_uint_digits (D8 d))|].
    split; [apply (NilEmpty.usu (D8 d))|reflexivity].
  - exists "9"%char, (NilEmpty.string_of_uint d), (D9 d).
    split; [reflexivity|]. split; [apply (string_of_uint_digits (D9 d))|].
    split; [apply (NilEmpty.usu (D9 d))|reflexivity].
Qed.

Lemma str_int_cases n :
  exists d,
    str_int (Z.abs n) = NilZero.string_of_uint d
    /\ str_int n = (if n <? 0 then String "-" (NilZero.string_of_uint d)
                    else NilZero.string_of_uint d)
    /\ Z.of_uint d = Z.abs n.
Proof.
  destruct n as [|p|p].
  - exists (D0 Nil). repeat split.
  - exists (Pos.to_uint p). repeat split.
    apply (DecimalZ.of_to (Zpos p)).
  - exists (Pos.to_uint p). repeat split.
    apply (DecimalZ.of_to (Zpos p)).
Qed.

(** What [int] makes of the decimal numeral of [n]: [n] itself up to the
    limit on the number of digits, a ValueError beyond it. *)
Lemma int_of_str_str_int_cases n :
  int_of_str (str_int n)
  = if int_max_str_digits <? digit_count n
    then Raise (limit_error (": value has " ++ str_int (digit_count n)
                             ++ " digits"))
    else Return n.
Proof.
  unfold digit_count.
  destruct (str_int_cases n) as (d & Ha & Hn & Hv).
  destruct (string_of_uint_shape d) as (c & r & d' & Hs & Hd & Hu & Hv').
  rewrite Ha, Hn, Hs.
  pose proof (int_of_str_numeral c r Hd (n <? 0)) as H.
  destruct (n <? 0) eqn:E.
  - rewrite H. cbv zeta. rewrite Hu.
    destruct (int_max_str_digits <? Z.of_nat (String.length (String c r)));
      [reflexivity|].
    apply Z.ltb_lt in E. f_equal. lia.
  - rewrite H. cbv zeta. rewrite Hu.
    destruct (int_max_str_digits <? Z.of_nat (String.length (String c r)));
      [reflexivity|].
    apply Z.ltb_ge in E. f_equal. lia.
Qed.

(** Round trip: [int(str(n))] is [n], for a numeral within the limit. *)
Lemma int_of_str_str_int n :
  digit_count n <= int_max_str_digits -> int_of_str (str_int n) = Return n.
Proof.
  intros H. rewrite int_of_str_str_int_cases.
  now apply Z.ltb_ge in H as ->.
Qed.

End IntText.

(** ** The constructor, field by field *)

Section Construction.

Context (K : Kinds) (C : Croniter) (D : Dates) (G : Sqlglot).

Lemma field_ok_intro {R A} loc (raw : option R) (default : option A)
    validator errors a :
  field_ok raw default validator a ->
  field loc raw default validator errors = Return (Some a, errors).
Proof.
  unfold field_ok, field. destruct raw as [v|].
  - now intros ->.
  - now intros ->.
Qed.

Lemma field_no_error {R A} loc (raw : option R) (default : option A)
    validator errors o errors' :
  field loc raw default validator errors = Return (o, errors') ->
  errors' = [] ->
  errors = [] /\ exists a, o = Some a /\ field_ok raw default validator a.
Proof.
  unfold field, field_ok. intros H E. subst errors'.
  destruct raw as [v|].
  - destruct (validator v) as [a|e].
    + inversion H; subst. split; [reflexivity|]. now exists a.
    + destruct (recorded_by_pydantic e); [|discriminate].
      inversion H as [[Ho He]]. now destruct errors.
  - destruct default as [d|].
    + inversion H; subst. split; [reflexivity|]. now exists d.
    + inversion H as [[Ho He]]. now destruct errors.
Qed.

(** A validator whose exceptions pydantic records never stops the
    constructor. *)
Lemma field_recorded {R A} loc (raw : option R) (default : option A)
    validator errors e :
  (forall v e, validator v = Raise e -> recorded_by_pydantic e = true) ->
  field loc raw default validator errors <> Raise e.
Proof.
  unfold field. intros H. destruct raw as [v|].
  - destruct (validator v) as [a|e'] eqn:E; [discriminate|].
    now rewrite (H v e' E).
  - now destruct default.
Qed.

Lemma format_int_recorded n e :
  format_int n = Raise e -> recorded_by_pydantic e = true.
Proof.
  unfold format_int. destruct (int_max_str_digits <? digit_count n);
    [|discriminate]. now intros H; inversion H.
Qed.

Lemma str_recorded v e : str v = Raise e -> recorded_by_pydantic e = true.
Proof. destruct v; simpl; try discriminate. apply format_int_recorded. Qed.

Lemma str_field_recorded v e :
  str_field v = Raise e -> recorded_by_pydantic e = true.
Proof.
  destruct v; simpl; try discriminate;
    try (now intros H; inversion H). apply format_int_recorded.
Qed.

Lemma _string_validator_recorded v e :
  _string_validator v = Raise e -> recorded_by_pydantic e = true.
Proof.
  destruct v as [|n|s|x]; simpl; try discriminate.
  destruct (format_int n) eqn:E; simpl; [discriminate|].
  intros H; inversion H; subst. now apply (format_int_recorded n).
Qed.

Lemma required_string_recorded v e :
  bind (_string_validator v) required = Raise e ->
  recorded_by_pydantic e = true.
Proof.
  destruct (_string_validator v) as [[s|]|e'] eqn:E; simpl; try discriminate.
  - now intros H; inversion H.
  - intros H; inversion H; subst. now apply (_string_validator_recorded v).
Qed.


Lemma _kind_validator_id (values values' : Values K) :
  _kind_validator K values = Return values' -> values' = values.
Proof.
  unfold _kind_validator. intros H.
  destruct (v_kind K values) as [k|]; [|now inversion H].
  destruct (negb (is_materialized K k)); [|now inversion H].
  destruct (v_partitioned_by_ K values) as [[[|x l]|]|];
    now inversion H.
Qed.

Lemma _kind_validator_recorded (values : Values K) e :
  _kind_validator K values = Raise e -> recorded_by_pydantic e = true.
Proof.
  unfold _kind_validator. intros H.
  destruct (v_kind K values) as [k|]; [|discriminate].
  destruct (negb (is_materialized K k)); [|discriminate].
  destruct (v_partitioned_by_ K values) as [[[|x l]|]|];
    try discriminate. now inversion H.
Qed.

Lemma of_values_inv (values : Values K) m :
  of_values K values = Some m -> values = values_of K m.
Proof.
  destruct values as [[?|] [?|] [?|] [?|] [?|] [?|] [?|] [?|] [?|] [?|] [?|] [?|]];
    simpl; intros H; try discriminate H. now inversion H.
Qed.

(** The constructor returns [m] exactly when [raw] is accepted as [m]. *)
Lemma ModelMeta_init_accepted (raw : RawModel K) (m : ModelMeta K) :
  ModelMeta_init K C D G raw = Return m <-> accepted K C D G raw m.
Proof.
  split.
  - unfold ModelMeta_init. intros H.
    destruct (validate_fields K C D G raw) as [[values errors]|] eqn:Hv;
      simpl in H; [|discriminate].
    destruct (_kind_validator K values) as [values'|e] eqn:Hk; simpl in H.
    + apply _kind_validator_id in Hk as Hid. subst values'.
      destruct errors; [|discriminate].
      destruct (of_values K values) as [m'|] eqn:Ho; [|discriminate].
      inversion H; subst m'. apply of_values_inv in Ho. subst values.
      unfold validate_fields in Hv.
      repeat match type of Hv with
             | bind (field ?l ?r ?d ?val ?e) _ = Return _ =>
                 let F := fresh "F" in
                 destruct (field l r d val e) as [[? ?]|] eqn:F;
                 simpl in Hv; [|discriminate]
             end.
      inversion Hv; subst.
      repeat match goal with
             | F : field _ _ _ _ _ = Return (_, []) |- _ =>
                 apply field_no_error in F as [? (? & ? & ?)];
                 [|reflexivity]; subst
             end.
      repeat match goal with
             | E : Some _ = Some _ |- _ => inversion E; subst; clear E
             end.
      unfold accepted, fields_accepted. now repeat split.
    + rewrite (_kind_validator_recorded _ _ Hk) in H. simpl in H.
      now destruct errors.
  - unfold accepted, fields_accepted.
    intros ((H1 & H2 & H3 & H4 & H5 & H6 & H7 & H8 & H9 & H10 & H11 & H12)
            & Hroot).
    unfold ModelMeta_init, validate_fields.
    rewrite (field_ok_intro _ _ _ _ _ _ H1); simpl.
    rewrite (field_ok_intro _ _ _ _ _ _ H2); simpl.
    rewrite (field_ok_intro _ _ _ _ _ _ H3); simpl.
    rewrite (field_ok_intro _ _ _ _ _ _ H4); simpl.
    rewrite (field_ok_intro _ _ _ _ _ _ H5); simpl.
    rewrite (field_ok_intro _ _ _ _ _ _ H6); simpl.
    rewrite (field_ok_intro _ _ _ _ _ _ H7); simpl.
    rewrite (field_ok_intro _ _ _ _ _ _ H8); simpl.
    rewrite (field_ok_intro _ _ _ _ _ _ H9); simpl.
    rewrite (field_ok_intro _ _ _ _ _ _ H10); simpl.
    rewrite (field_ok_intro _ _ _ _ _ _ H11); simpl.
    rewrite (field_ok_intro _ _ _ _ _ _ H12); simpl.
    change (bind
              (match _kind_validator K (values_of K m) with
               | Return values => Return (values, [])
               | Raise e =>
                   if recorded_by_pydantic e
                   then Return (values_of K m, ([] ++ [("__root__", message e)])%list)
                   else Raise e
               end)
              (fun '(values, errors) =>
                 match errors, of_values K values with
                 | [], Some m => Return m
                 | _, _ => Raise (ValidationError errors)
                 end) = Return m).
    rewrite Hroot. simpl. now destruct m.
Qed.

End Construction.

(** ** Batch size *)

Section BatchSize.

Context (K : Kinds) (C : Croniter) (D : Dates) (G : Sqlglot).







End BatchSize.



(** The form that the parser gives a negative number is a negation node,
    whose name is the text of its operand: the sign is lost, and the batch
    size -2 of a model definition is accepted as 2. *)
Lemma negated_batch_size_is_accepted :
  Exp.name (Neg (Literal "2" false)) = "2"
  /\ _int_validator (PyExp (Neg (Literal "2" false))) = Return (Some 2)
  /\ exists m, Ref.init (Ref.definition None None
                           (Some (PyExp (Neg (Literal "2" false)))) None)
               = Return m
               /\ batch_size m = Some 2.
Proof.
  split; [reflexivity|]. split; [reflexivity|].
  eexists. split; [vm_compute; reflexivity|reflexivity].
Qed.


(** ** Partitioning and materialized kinds *)

Section Partitioning.

Context (K : Kinds) (C : Croniter) (D : Dates) (G : Sqlglot).

Lemma _kind_validator_materialized (m : ModelMeta K) :
  is_materialized K (kind m) = true ->
  _kind_validator K (values_of K m) = Return (values_of K m).
Proof. unfold _kind_validator; simpl. now intros ->. Qed.

Lemma _kind_validator_passes (m : ModelMeta K) :
  _kind_validator K (values_of K m) = Return (values_of K m) ->
  is_materialized K (kind m) = true
  \/ partitioned_by_ m = None \/ partitioned_by_ m = Some [].
Proof.
  unfold _kind_validator; simpl.
  destruct (is_materialized K (kind m)); [now left|]; simpl.
  destruct (partitioned_by_ m) as [[|p ps]|]; auto. discriminate.
Qed.

(** C1, as the code has it: when the fields validate, the resolved kind is
    not materialized and the explicit partition list is not empty, the
    constructor fails with a validation error that carries the message of
    the root validator, which names the kind; when the fields validate and
    the kind is materialized, the constructor returns the record, partition
    list included; no record that the constructor returns has a kind that
    is not materialized together with a non-empty explicit partition
    list. *)
Theorem partitioned_by_needs_materialized :
  (forall (raw : RawModel K) values errors kind p ps,
     validate_fields K C D G raw = Return (values, errors) ->
     v_kind K values = Some kind ->
     v_partitioned_by_ K values = Some (Some (p :: ps)) ->
     is_materialized K kind = false ->
     ModelMeta_init K C D G raw
     = Raise (ValidationError
                (errors ++
                 [("__root__",
                   "partitioned_by field cannot be set for " ++
                   kind_str K kind ++ " models")%string])%list))
  /\ (forall (raw : RawModel K) m,
        fields_accepted K C D G raw m ->
        is_materialized K (kind m) = true ->
        ModelMeta_init K C D G raw = Return m)
  /\ (forall (raw : RawModel K) m p ps,
        ModelMeta_init K C D G raw = Return m ->
        partitioned_by_ m = Some (p :: ps) ->
        is_materialized K (kind m) = true).
Proof.
  split; [|split].
  - intros raw values errors kind p ps Hv Hk Hp Hm.
    unfold ModelMeta_init. rewrite Hv; simpl.
    unfold _kind_validator. rewrite Hk, Hm, Hp; simpl.
    now destruct errors.
  - intros raw m Hf Hm. apply ModelMeta_init_accepted. split; [exact Hf|].
    now apply _kind_validator_materialized.
  - intros raw m p ps Hm Hp. apply ModelMeta_init_accepted in Hm as [_ Hroot].
    destruct (_kind_validator_passes m Hroot) as [H|[H|H]]; [exact H|..];
      rewrite H in Hp; discriminate.
Qed.

End Partitioning.

Lemma partitioned_by_needs_materialized_witness :
  Ref.init (Ref.definition (Some (KindValue (PyStr "VIEW"))) None None
              (Some (SeqList ["ds"])))
  = Raise (ValidationError
             [("__root__",
               "partitioned_by field cannot be set for name=VIEW models")])
  /\ (exists m,
        Ref.init (Ref.definition (Some (KindValue (PyStr "FULL"))) None None
                    (Some (SeqList ["ds"]))) = Return m
        /\ partitioned_by_ m = Some ["ds"])
  /\ Ref.materialized (Generic Ref.FULL) = true.
Proof.
  destruct (partitioned_by_needs_materialized
              Ref.kinds Ref.croniter Ref.dates Ref.sqlglot) as (F & S & N).
  pose (raw := Ref.definition (Some (KindValue (PyStr "FULL"))) None None
                (Some (SeqList ["ds"]))).
  pose (m := {| name := "db.events";
                kind := (Generic Ref.FULL : Kind Ref.kinds);
                dialect := ""; cron := "@daily"; owner := None;
                description := None; start := None; batch_size := None;
                storage_format := None; partitioned_by_ := Some ["ds"];
                depends_on_ := None; columns_to_types_ := None |}).
  assert (Hm : Ref.init raw = Return m).
  { apply S; [|reflexivity].
    unfold fields_accepted, field_ok; simpl. repeat split. }
  split; [|split].
  - eapply (F _ _ [] (Generic Ref.VIEW) "ds" []);
      [vm_compute; reflexivity|reflexivity|reflexivity|reflexivity].
  - exists m. split; [exact Hm|reflexivity].
  - exact (N raw m "ds" [] Hm eq_refl).
Defined.

(** ** The reference cron library keeps the contract of croniter *)

Lemma periodic_laws : CroniterLaws Ref.croniter.
Proof.
  constructor; simpl;
    try (intros [p o]; unfold Ref.periodic_fires, Ref.periodic_next,
           Ref.periodic_prev; simpl).
  - intros t. apply Z.eqb_eq.
    replace (t - (t - o) mod Z.pos p + Z.pos p - o)
      with ((t - o) - (t - o) mod Z.pos p + 1 * Z.pos p) by ring.
    rewrite Z.mod_add by lia.
    rewrite Zminus_mod, Z.mod_mod, Z.sub_diag by lia. reflexivity.
  - intros t. pose proof (Z.mod_pos_bound (t - o) (Z.pos p)). lia.
  - intros t u Hu Ht. apply Z.eqb_eq in Hu.
    pose proof (Z.mod_pos_bound (t - o) (Z.pos p) ltac:(lia)) as Hb.
    pose proof (Z.div_mod (t - o) (Z.pos p) ltac:(lia)) as Ht'.
    pose proof (Z.div_mod (u - o) (Z.pos p) ltac:(lia)) as Hu'.
    rewrite Hu in Hu'.
    assert ((t - o) / Z.pos p < (u - o) / Z.pos p) by nia.
    nia.
  - intros t. destruct (((t - o) mod Z.pos p) =? 0) eqn:E; apply Z.eqb_eq.
    + apply Z.eqb_eq in E.
      replace (t - Z.pos p - o) with ((t - o) + (-1) * Z.pos p) by ring.
      now rewrite Z.mod_add by lia.
    + replace (t - (t - o) mod Z.pos p - o)
        with ((t - o) - (t - o) mod Z.pos p) by ring.
      rewrite Zminus_mod, Z.mod_mod, Z.sub_diag by lia. reflexivity.
  - intros t. pose proof (Z.mod_pos_bound (t - o) (Z.pos p) ltac:(lia)).
    destruct (((t - o) mod Z.pos p) =? 0) eqn:E.
    + lia.
    + apply Z.eqb_neq in E. lia.
  - intros t u Hu Ht. apply Z.eqb_eq in Hu.
    pose proof (Z.mod_pos_bound (t - o) (Z.pos p) ltac:(lia)) as Hb.
    pose proof (Z.div_mod (t - o) (Z.pos p) ltac:(lia)) as Ht'.
    pose proof (Z.div_mod (u - o) (Z.pos p) ltac:(lia)) as Hu'.
    rewrite Hu in Hu'.
    destruct (((t - o) mod Z.pos p) =? 0) eqn:E.
    + apply Z.eqb_eq in E.
      assert ((u - o) / Z.pos p < (t - o) / Z.pos p) by nia. nia.
    + assert ((u - o) / Z.pos p <= (t - o) / Z.pos p) by nia. nia.
  - discriminate.
  - discriminate.
  - discriminate.
  - discriminate.
Qed.

(** ** The cron field *)

Section CronField.

Context (K : Kinds) (C : Croniter) (D : Dates) (G : Sqlglot).

Lemma _cron_validator_rejects v c :
  _string_validator v = Return (Some c) -> c <> "" -> expand C c = None ->
  _cron_validator C v = Raise (cron_error c).
Proof.
  unfold _cron_validator. intros -> Hc He. simpl.
  destruct c as [|a r]; [congruence|]. now rewrite He.
Qed.

Lemma _cron_validator_returns v o :
  _cron_validator C v = Return o ->
  _string_validator v = Return o
  /\ (o = None \/ o = Some "" \/ exists c, o = Some c /\ expand C c <> None).
Proof.
  unfold _cron_validator.
  destruct (_string_validator v) as [[[|a r]|]|] eqn:E; simpl.
  - intros H; inversion H; auto.
  - destruct (expand C (String a r)) eqn:X; [|discriminate].
    intros H; inversion H; subst. split; [reflexivity|].
    right; right. exists (String a r). split; [reflexivity|]. congruence.
  - intros H; inversion H; auto.
  - discriminate.
Qed.

(** The fields ahead of [cron] never stop the constructor, except for the
    kind validator. *)
Lemma cron_field_reached (raw : RawModel K) v e :
  raw_cron K raw = Some v ->
  _cron_validator C v = Raise e -> recorded_by_pydantic e = false ->
  ModelMeta_init K C D G raw = Raise e
  \/ exists k e', raw_kind K raw = Some k
                  /\ _model_kind_validator K k = Raise e'
                  /\ ModelMeta_init K C D G raw = Raise e'.
Proof.
  intros Hraw Hv Hrec. unfold ModelMeta_init, validate_fields.
  destruct (field "name" (raw_name K raw) None str_field [])
    as [[n errors]|e0] eqn:F1.
  2:{ exfalso. exact (field_recorded _ _ _ _ _ _ str_field_recorded F1). }
  simpl.
  destruct (field "kind" (raw_kind K raw)
              (Some (IncrementalByTimeRange_default K))
              (_model_kind_validator K) errors)
    as [[k errors2]|e2] eqn:F2.
  2:{ right. unfold field in F2.
      destruct (raw_kind K raw) as [rk|]; [|discriminate].
      destruct (_model_kind_validator K rk) as [|e'] eqn:Hk; [discriminate|].
      destruct (recorded_by_pydantic e'); [discriminate|].
      inversion F2; subst. exists rk, e2. now repeat split. }
  simpl.
  destruct (field "dialect" (raw_dialect K raw) (Some "")
              (fun v => bind (_string_validator v) required) errors2)
    as [[d errors3]|e3] eqn:F3.
  2:{ exfalso. exact (field_recorded _ _ _ _ _ _ required_string_recorded F3). }
  simpl. left.
  rewrite Hraw. unfold field at 1. rewrite Hv; simpl. now rewrite Hrec.
Qed.

(** C3, as the code has it: a cron value whose text is not empty and does
    not parse is refused by the validator with the invalid-cron
    ConfigError, and the constructor then fails with that error (or with
    what the kind validator raised before it); the cron of a constructed
    record is the empty text or parses. *)
Theorem cron_is_valid_or_empty (L : CroniterLaws C) :
  (forall v c,
     _string_validator v = Return (Some c) -> c <> "" -> expand C c = None ->
     _cron_validator C v = Raise (cron_error c)
     /\ forall raw : RawModel K,
          raw_cron K raw = Some v ->
          ModelMeta_init K C D G raw = Raise (cron_error c)
          \/ exists k e', raw_kind K raw = Some k
                          /\ _model_kind_validator K k = Raise e'
                          /\ ModelMeta_init K C D G raw = Raise e')
  /\ (forall (raw : RawModel K) m,
        ModelMeta_init K C D G raw = Return m ->
        cron m = "" \/ expand C (cron m) <> None).
Proof.
  split.
  - intros v c Hs Hc He.
    pose proof (_cron_validator_rejects v c Hs Hc He) as Hv.
    split; [exact Hv|]. intros raw Hraw.
    now apply (cron_field_reached raw v (cron_error c)).
  - intros raw m Hm. apply ModelMeta_init_accepted in Hm.
    destruct Hm as ((_ & _ & _ & Hc & _) & _). unfold field_ok in Hc.
    destruct (raw_cron K raw) as [v|].
    + destruct (_cron_validator C v) as [o|] eqn:E; [|discriminate].
      simpl in Hc. destruct o as [c|]; [|discriminate].
      inversion Hc; subst.
      destruct (_cron_validator_returns v _ E) as (_ & [H|[H|(c' & H & H')]]);
        inversion H; subst; auto.
    + inversion Hc. right. apply (expand_daily C L).
Qed.

End CronField.

(** C3 as stated fails: the empty text is not a cron expression, yet a
    record with that cron is constructed. *)
Lemma empty_cron_is_constructed :
  expand Ref.croniter "" = None
  /\ exists m, Ref.init (Ref.definition None (Some (PyStr "")) None None)
               = Return m
               /\ cron m = "".
Proof.
  split; [reflexivity|]. eexists. split; [vm_compute; reflexivity|reflexivity].
Qed.

Lemma cron_is_valid_or_empty_witness :
  _cron_validator Ref.croniter (PyStr "every day")
  = Raise (cron_error "every day")
  /\ expand Ref.croniter "*/15 * * * *" <> None.
Proof.
  destruct (cron_is_valid_or_empty Ref.kinds Ref.croniter Ref.dates
              Ref.sqlglot periodic_laws) as (R & V).
  split.
  - apply (R (PyStr "every day") "every day");
      [reflexivity|discriminate|reflexivity].
  - destruct (V (Ref.definition None (Some (PyStr "*/15 * * * *")) None None)
                {| name := "db.events";
                   kind := IncrementalByTimeRange_default Ref.kinds;
                   dialect := ""; cron := "*/15 * * * *"; owner := None;
                   description := None; start := None; batch_size := None;
                   storage_format := None; partitioned_by_ := None;
                   depends_on_ := None; columns_to_types_ := None |})
      as [H|H]; [vm_compute; reflexivity|discriminate H|exact H].
Defined.

(** C1 as stated fails in one respect: the failure is the ValueError of the
    root validator, which the constructor reports as a validation error;
    it is not a ConfigError. *)
Lemma partitioned_by_error_is_not_ConfigError :
  ~ exists msg,
      Ref.init (Ref.definition (Some (KindValue (PyStr "VIEW"))) None None
                  (Some (SeqList ["ds"])))
      = Raise (ConfigError msg).
Proof.
  assert (H : Ref.init (Ref.definition (Some (KindValue (PyStr "VIEW"))) None
                          None (Some (SeqList ["ds"])))
              = Raise (ValidationError
                         [("__root__",
                           "partitioned_by field cannot be set for name=VIEW models")]))
    by (vm_compute; reflexivity).
  intros [msg E]. rewrite H in E. discriminate E.
Qed.

(** ** Unrecognized kind names *)

Section KindNames.

Context (K : Kinds) (C : Croniter) (D : Dates) (G : Sqlglot).

Lemma ModelKindName_call_unrecognized name :
  unrecognized K name ->
  ModelKindName_call K name
  = Raise (ValueError ("'" ++ name ++ "' is not a valid ModelKindName")).
Proof.
  unfold unrecognized, ModelKindName_call. intros H.
  assert (E : find (fun m => String.eqb (value K m) name) (members K) = None).
  { induction (members K) as [|m l IH]; [reflexivity|]. simpl.
    destruct (String.eqb_spec (value K m) name) as [Heq|Hne].
    - exfalso. apply (H m); [now left|exact Heq].
    - apply IH. intros m' Hm'. apply H. now right. }
  now rewrite E.
Qed.

Lemma find_member_unrecognized name :
  unrecognized K name ->
  find (fun m => String.eqb (value K m) name) (members K) = None.
Proof.
  unfold unrecognized. intros H.
  induction (members K) as [|m l IH]; [reflexivity|]. simpl.
  destruct (String.eqb_spec (value K m) name) as [Heq|Hne].
  - exfalso. apply (H m); [now left|exact Heq].
  - apply IH. intros m' Hm'. apply H. now right.
Qed.

(** A kind given as anything but a kind object, a dict or a parsed kind
    node goes by its text. *)
Lemma _model_kind_validator_bare v :
  (forall this es, v <> PyExp (ModelKindExp this es)) ->
  _model_kind_validator K (KindValue v)
  = bind (str v) (fun name =>
    match bind (ModelKindName_call K name)
            (fun n => ModelKind_init K [("name", KwName n)]) with
    | Return k => Return k
    | Raise e =>
        if is_ValueError e
        then Raise (ConfigError ("Invalid model kind '" ++ name ++ "'"))
        else Raise e
    end).
Proof.
  intros Hv. destruct v as [| | |e]; try reflexivity.
  destruct e; try reflexivity. exfalso. eapply Hv. reflexivity.
Qed.

(** C2, as the code has it.  For a name outside the enumeration: a bare
    expression or plain value is refused with the ConfigError that quotes
    the name; a parsed kind node is refused with the ValueError of the
    enumeration lookup, and a dict with the validation error of the
    generic constructor, neither of which is a ConfigError. *)
Theorem unknown_kind_name_errors (name : string) :
  unrecognized K name ->
  In (INCREMENTAL_BY_TIME_RANGE K) (members K) ->
  In (INCREMENTAL_BY_UNIQUE_KEY K) (members K) ->
  (forall v, (forall this es, v <> PyExp (ModelKindExp this es)) ->
     str v = Return name ->
     _model_kind_validator K (KindValue v)
     = Raise (ConfigError ("Invalid model kind '" ++ name ++ "'")))
  /\ (forall expressions,
        _model_kind_validator K
          (KindValue (PyExp (ModelKindExp name expressions)))
        = Raise (ValueError ("'" ++ name ++ "' is not a valid ModelKindName")))
  /\ (forall v, dict_get "name" v = Some (KwStr name) ->
        _model_kind_validator K (KindDict v)
        = Raise (ValidationError
                   [("name", "value is not a valid enumeration member")])).
Proof.
  intros Hu Htr Huk.
  assert (Etr : String.eqb name (value K (INCREMENTAL_BY_TIME_RANGE K)) = false).
  { apply String.eqb_neq. intros E. now apply (Hu _ Htr). }
  assert (Euk : String.eqb name (value K (INCREMENTAL_BY_UNIQUE_KEY K)) = false).
  { apply String.eqb_neq. intros E. now apply (Hu _ Huk). }
  split; [|split].
  - intros v Hv Hs.
    rewrite (_model_kind_validator_bare v Hv), Hs. simpl.
    now rewrite (ModelKindName_call_unrecognized name Hu).
  - intros expressions. unfold _model_kind_validator.
    rewrite Etr, Euk, (ModelKindName_call_unrecognized name Hu). reflexivity.
  - intros v Hv. unfold _model_kind_validator, kw_eq. rewrite Hv, Etr, Euk.
    unfold ModelKind_init. rewrite Hv, (find_member_unrecognized name Hu).
    reflexivity.
Qed.

End KindNames.

Lemma unknown_kind_name_errors_witness :
  _model_kind_validator Ref.kinds (KindValue (PyStr "TABLE"))
  = Raise (ConfigError "Invalid model kind 'TABLE'")
  /\ _model_kind_validator Ref.kinds
       (KindValue (PyExp (ModelKindExp "TABLE" [])))
     = Raise (ValueError "'TABLE' is not a valid ModelKindName")
  /\ _model_kind_validator Ref.kinds (KindDict [("name", KwStr "TABLE")])
     = Raise (ValidationError
                [("name", "value is not a valid enumeration member")]).
Proof.
  destruct (unknown_kind_name_errors Ref.kinds "TABLE") as (B & A & M).
  - intros m [<-|[<-|[<-|[<-|[]]]]]; discriminate.
  - simpl; auto.
  - simpl; auto.
  - split; [|split].
    + apply B; [discriminate|reflexivity].
    + apply A.
    + apply M. reflexivity.
Defined.

(** The constructor on a parsed kind node and on a dict with the name
    TABLE, which is not a kind: it fails, with pydantic's validation
    error and not with a ConfigError. *)
Lemma unknown_kind_node_construction :
  Ref.init (Ref.definition
              (Some (KindValue (PyExp (ModelKindExp "TABLE" []))))
              None None None)
  = Raise (ValidationError
             [("kind", "'TABLE' is not a valid ModelKindName")])
  /\ Ref.init (Ref.definition (Some (KindDict [("name", KwStr "TABLE")]))
                 None None None)
     = Raise (ValidationError [("kind", "validation error")])
  /\ Ref.init (Ref.definition (Some (KindValue (PyStr "TABLE")))
                 None None None)
     = Raise (ConfigError "Invalid model kind 'TABLE'").
Proof. repeat split; vm_compute; reflexivity. Qed.

(** ** The derived partition columns *)

Section PartitionedBy.

Context (K : Kinds).

Lemma unique_In x l : In x (unique l) <-> In x l.
Proof.
  induction l as [|a l IH]; simpl; [tauto|].
  rewrite filter_In, IH.
  destruct (String.eqb_spec a x) as [->|Hne]; simpl.
  - tauto.
  - split; [tauto|]. intros [H|H]; [now left|]. right. now split.
Qed.

Lemma unique_NoDup l : NoDup (unique l).
Proof.
  induction l as [|a l IH]; simpl; constructor.
  - rewrite filter_In, String.eqb_refl. simpl. intros [_ H]. discriminate.
  - now apply NoDup_filter.
Qed.




End PartitionedBy.


(** The accessor on explicit columns that repeat and name the time
    column. *)
Example partitioned_by_example :
  partitioned_by
    {| name := "db.events";
       kind := (IncrementalByTimeRange (Some {| column := "ds" |})
                : Kind Ref.kinds);
       dialect := ""; cron := "@daily"; owner := None; description := None;
       start := None; batch_size := None; storage_format := None;
       partitioned_by_ := Some ["region"; "ds"; "region"; "day"];
       depends_on_ := None; columns_to_types_ := None |}
  = ["ds"; "region"; "day"].
Proof. reflexivity. Qed.

(** ** Sampling a schedule *)

Section Sampling.

Context (K : Kinds) (C : Croniter).

Lemma take_samples_length n (c : cursor C) :
  List.length (take_samples C n c) = n.
Proof.
  revert c. induction n as [|n IH]; intros c; simpl; [reflexivity|].
  now rewrite IH.
Qed.

Lemma gaps_length l : List.length (gaps l) = Nat.pred (List.length l).
Proof.
  unfold gaps. rewrite length_map, length_combine.
  destruct l as [|a l]; [reflexivity|].
  cbn [tl List.length Nat.pred]. apply Nat.min_r. apply Nat.le_succ_diag_r.
Qed.

Lemma fold_min_le l x : fold_left Z.min l x <= x.
Proof.
  revert x. induction l as [|a l IH]; intros x; simpl; [lia|].
  specialize (IH (Z.min x a)). lia.
Qed.

Lemma fold_min_lower l x y : In y l -> fold_left Z.min l x <= y.
Proof.
  revert x. induction l as [|a l IH]; intros x; simpl; [tauto|].
  intros [->|H]; [|now apply IH].
  pose proof (fold_min_le l (Z.min x y)). lia.
Qed.

Lemma fold_min_In l x : fold_left Z.min l x = x \/ In (fold_left Z.min l x) l.
Proof.
  revert x. induction l as [|a l IH]; intros x; simpl; [now left|].
  destruct (IH (Z.min x a)) as [H|H]; [|now right; right].
  rewrite H. destruct (Z.min_spec x a) as [[_ E]|[_ E]]; rewrite E; auto.
Qed.

(** [min] returns the least element of a sequence that is not empty. *)
Lemma min_spec l :
  l <> [] ->
  exists g, Py.min l = Return g /\ In g l /\ forall x, In x l -> g <= x.
Proof.
  destruct l as [|a l]; [congruence|]. intros _.
  exists (fold_left Z.min l a). split; [reflexivity|]. split.
  - destruct (fold_min_In l a) as [H|H]; [rewrite H; now left|now right].
  - intros x [<-|H]; [apply fold_min_le|now apply fold_min_lower].
Qed.

Lemma interval_unit_eq (m : ModelMeta K) now n e :
  expand C (cron m) = Some e ->
  interval_unit K C m now n
  = bind (Py.min (gaps (take_samples C (Z.to_nat n)
                          {| schedule := e; cur := now |})))
      (fun g => Return (classify g)).
Proof.
  intros He. unfold interval_unit, croniter_init. rewrite He; simpl.
  destruct (Py.min _) as [g|]; simpl; [|reflexivity].
  unfold classify. now destruct (86400 <=? g), (3600 <=? g).
Qed.

Lemma gaps_of_few (n : Z) (c : cursor C) :
  n <= 1 -> gaps (take_samples C (Z.to_nat n) c) = [].
Proof.
  intros Hn. apply length_zero_iff_nil.
  rewrite gaps_length, take_samples_length. lia.
Qed.

Lemma gaps_of_many (n : Z) (c : cursor C) :
  2 <= n -> gaps (take_samples C (Z.to_nat n) c) <> [].
Proof.
  intros Hn E. apply (f_equal (@List.length Z)) in E.
  rewrite gaps_length, take_samples_length in E. simpl in E. lia.
Qed.

Lemma interval_unit_returns (m : ModelMeta K) now n e :
  2 <= n -> expand C (cron m) = Some e ->
  exists g,
    Py.min (gaps (take_samples C (Z.to_nat n) {| schedule := e; cur := now |}))
    = Return g
    /\ interval_unit K C m now n = Return (classify g).
Proof.
  intros Hn He. rewrite (interval_unit_eq m now n e He).
  destruct (min_spec _ (gaps_of_many n {| schedule := e; cur := now |} Hn))
    as (g & Hg & _).
  exists g. now rewrite Hg.
Qed.

(** C10: with a sample size of at most one there is no gap to take the
    minimum of, and the call raises the ValueError of [min] (or croniter's
    own error when the cron does not parse), never a ConfigError; with two
    samples or more and a cron that parses, the call returns a unit. *)
Theorem interval_unit_sample_size (m : ModelMeta K) (now n : Z) :
  (n <= 1 ->
     (forall e, expand C (cron m) = Some e ->
        interval_unit K C m now n
        = Raise (ValueError "min() arg is an empty sequence"))
     /\ exists ex, interval_unit K C m now n = Raise ex
                   /\ is_ConfigError ex = false)
  /\ (2 <= n ->
        forall e, expand C (cron m) = Some e ->
          exists u, interval_unit K C m now n = Return u
                    /\ (u = DAY \/ u = HOUR \/ u = MINUTE)).
Proof.
  split.
  - intros Hn.
    assert (Hv : forall e, expand C (cron m) = Some e ->
               interval_unit K C m now n
               = Raise (ValueError "min() arg is an empty sequence")).
    { intros e He.
      rewrite (interval_unit_eq m now n e He), (gaps_of_few n _ Hn).
      reflexivity. }
    split; [exact Hv|].
    destruct (expand C (cron m)) as [e|] eqn:He.
    + eexists. split; [now apply (Hv e)|reflexivity].
    + unfold interval_unit, croniter_init. rewrite He. simpl.
      eexists. split; reflexivity.
  - intros Hn e He.
    destruct (interval_unit_returns m now n e Hn He) as (g & _ & ->).
    exists (classify g). split; [reflexivity|]. destruct (classify g); auto.
Qed.

Lemma normalized_cron_eq (m : ModelMeta K) now :
  normalized_cron K C m now
  = bind (interval_unit K C m now 10) (fun u => Return (canonical u)).
Proof.
  unfold normalized_cron. destruct (interval_unit K C m now 10) as [[]|];
    reflexivity.
Qed.

(** C5: the normalized cron is the canonical expression of the inferred
    unit, the branch that returns the empty text is never taken, and for a
    cron that parses the call returns one of the three canonical
    expressions. *)
Theorem normalized_cron_canonical (m : ModelMeta K) (now : Z) :
  (forall u, interval_unit K C m now 10 = Return u ->
     normalized_cron K C m now
     = Return (match u with
               | MINUTE => "* * * * *"
               | HOUR => "0 * * * *"
               | DAY => "0 0 * * *"
               end))
  /\ normalized_cron K C m now <> Return ""
  /\ (forall e, expand C (cron m) = Some e ->
        normalized_cron K C m now = Return "* * * * *"
        \/ normalized_cron K C m now = Return "0 * * * *"
        \/ normalized_cron K C m now = Return "0 0 * * *").
Proof.
  rewrite normalized_cron_eq. split; [|split].
  - intros u ->. now destruct u.
  - destruct (interval_unit K C m now 10) as [[]|]; simpl; discriminate.
  - intros e He.
    destruct (interval_unit_returns m now 10 e ltac:(lia) He) as (g & _ & ->).
    destruct (classify g); simpl; auto.
Qed.

End Sampling.

Lemma interval_unit_sample_size_witness :
  interval_unit Ref.kinds Ref.croniter (Ref.model "0 13 * * *") 1700000000 1
  = Raise (ValueError "min() arg is an empty sequence")
  /\ exists u,
       interval_unit Ref.kinds Ref.croniter (Ref.model "0 13 * * *")
         1700000000 2 = Return u
       /\ (u = DAY \/ u = HOUR \/ u = MINUTE).
Proof.
  split.
  - destruct (interval_unit_sample_size Ref.kinds Ref.croniter
                (Ref.model "0 13 * * *") 1700000000 1) as [F _].
    destruct (F ltac:(lia)) as [Hv _]. eapply Hv. reflexivity.
  - destruct (interval_unit_sample_size Ref.kinds Ref.croniter
                (Ref.model "0 13 * * *") 1700000000 2) as [_ M].
    eapply (M ltac:(lia)). reflexivity.
Defined.

Lemma normalized_cron_canonical_witness :
  normalized_cron Ref.kinds Ref.croniter (Ref.model "0 13 * * *") 1700000000
  = Return "0 0 * * *"
  /\ (normalized_cron Ref.kinds Ref.croniter (Ref.model "*/15 * * * *")
        1700000000 = Return "* * * * *"
      \/ normalized_cron Ref.kinds Ref.croniter (Ref.model "*/15 * * * *")
           1700000000 = Return "0 * * * *"
      \/ normalized_cron Ref.kinds Ref.croniter (Ref.model "*/15 * * * *")
           1700000000 = Return "0 0 * * *").
Proof.
  split.
  - destruct (normalized_cron_canonical Ref.kinds Ref.croniter
                (Ref.model "0 13 * * *") 1700000000) as (U & _ & _).
    apply (U DAY). vm_compute. reflexivity.
  - destruct (normalized_cron_canonical Ref.kinds Ref.croniter
                (Ref.model "*/15 * * * *") 1700000000) as (_ & _ & V).
    eapply V. reflexivity.
Defined.

(** ** Classification of a schedule by its smallest gap *)

Section Classification.

Context (K : Kinds) (C : Croniter) (L : CroniterLaws C).




Lemma next_fire_every e p o t :
  0 < p -> fires_every C e p o -> fires C e t = true ->
  next_fire C e t = t + p.
Proof.
  intros Hp He Ht.
  assert (Hf : fires C e (t + p) = true).
  { apply He. apply He in Ht.
    replace (t + p - o) with ((t - o) + 1 * p) by ring.
    now rewrite Z.mod_add by lia. }
  pose proof (next_least C L e t (t + p) Hf ltac:(lia)) as Hle.
  pose proof (next_after C L e t) as Hgt.
  pose proof (next_fires C L e t) as Hn. apply He in Hn. apply He in Ht.
  pose proof (Z.div_mod (next_fire C e t - o) p ltac:(lia)) as E1.
  pose proof (Z.div_mod (t - o) p ltac:(lia)) as E2.
  rewrite Hn in E1. rewrite Ht in E2.
  assert ((t - o) / p < (next_fire C e t - o) / p) by nia.
  nia.
Qed.

Lemma gaps_every e p o n t :
  0 < p -> fires_every C e p o -> fires C e t = true ->
  gaps (t :: take_samples C n {| schedule := e; cur := t |}) = repeat p n.
Proof.
  intros Hp He. revert t. induction n as [|n IH]; intros t Ht.
  - reflexivity.
  - simpl take_samples. rewrite (next_fire_every e p o t Hp He Ht).
    assert (Hf : fires C e (t + p) = true).
    { rewrite <- (next_fire_every e p o t Hp He Ht). apply (next_fires C L). }
    specialize (IH (t + p) Hf).
    change (gaps (t :: t + p :: take_samples C n {| schedule := e; cur := t + p |}))
      with ((t + p - t)
            :: gaps (t + p :: take_samples C n {| schedule := e; cur := t + p |})).
    rewrite IH. simpl. f_equal. ring.
Qed.

Lemma min_repeat p n : Py.min (repeat p (S n)) = Return p.
Proof.
  simpl. f_equal. induction n as [|n IH]; simpl; [reflexivity|].
  now rewrite Z.min_id.
Qed.

Lemma take_samples_S n e t :
  take_samples C (S n) {| schedule := e; cur := t |}
  = next_fire C e t
    :: take_samples C n {| schedule := e; cur := next_fire C e t |}.
Proof. reflexivity. Qed.

Lemma interval_unit_every (m : ModelMeta K) now n e p o :
  expand C (cron m) = Some e -> 2 <= n ->
  0 < p -> fires_every C e p o ->
  interval_unit K C m now n = Return (classify p).
Proof.
  intros He Hn Hp Hf. rewrite (interval_unit_eq K C m now n e He).
  destruct (Z.to_nat n) as [|[|k]] eqn:E; [lia|lia|].
  rewrite take_samples_S.
  rewrite (gaps_every e p o (S k) (next_fire C e now) Hp Hf
             (next_fires C L e now)).
  now rewrite min_repeat.
Qed.


End Classification.

Lemma periodic_fires_every p o :
  fires_every Ref.croniter {| Ref.period := p; Ref.offset := o |} (Z.pos p) o.
Proof. intros t. apply Z.eqb_eq. Qed.


(** ** The cron navigator *)

Section Navigator.

Context (K : Kinds) (C : Croniter) (D : Dates).

(** What [croniter(value)] returns and leaves in the cache. *)
Lemma croniter_Return (m : ModelMeta K) now value cache e t :
  navigator_schedule K C m now cache = Return e ->
  to_datetime D value = Return (Some t) ->
  croniter K C D m now value cache
  = (Return {| schedule := e; cur := t |},
     Some {| schedule := e; cur := t |}).
Proof.
  unfold navigator_schedule, croniter. intros Hs Ht.
  destruct cache as [c|].
  - inversion Hs; subst. now rewrite Ht.
  - destruct (normalized_cron K C m now) as [expr|]; [|discriminate].
    simpl in *. destruct (croniter_init C expr now) as [c|]; [|discriminate].
    simpl in *. inversion Hs; subst. now rewrite Ht.
Qed.

Lemma croniter_no_time (m : ModelMeta K) now value cache e :
  navigator_schedule K C m now cache = Return e ->
  to_datetime D value = Return None ->
  exists c, schedule c = e
            /\ croniter K C D m now value cache
               = (Raise (TypeError "set_current() needs a point in time"),
                  Some c).
Proof.
  unfold navigator_schedule, croniter. intros Hs Ht.
  destruct cache as [c|].
  - inversion Hs; subst. exists c. now rewrite Ht.
  - destruct (normalized_cron K C m now) as [expr|]; [|discriminate].
    simpl in *. destruct (croniter_init C expr now) as [c|]; [|discriminate].
    simpl in *. inversion Hs; subst. exists c. now rewrite Ht.
Qed.

(** What the date helper raises on the argument leaves [croniter] as it
    is, after the navigator has been built. *)
Lemma croniter_unreadable (m : ModelMeta K) now value cache e ex :
  navigator_schedule K C m now cache = Return e ->
  to_datetime D value = Raise ex ->
  exists c, schedule c = e
            /\ croniter K C D m now value cache = (Raise ex, Some c).
Proof.
  unfold navigator_schedule, croniter. intros Hs Ht.
  destruct cache as [c|].
  - inversion Hs; subst. exists c. now rewrite Ht.
  - destruct (normalized_cron K C m now) as [expr|]; [|discriminate].
    simpl in *. destruct (croniter_init C expr now) as [c|]; [|discriminate].
    simpl in *. inversion Hs; subst. exists c. now rewrite Ht.
Qed.

Lemma croniter_Raise (m : ModelMeta K) now value cache ex :
  navigator_schedule K C m now cache = Raise ex ->
  croniter K C D m now value cache = (Raise ex, None) /\ cache = None.
Proof.
  unfold navigator_schedule, croniter. intros Hs.
  destruct cache as [c|]; [discriminate|].
  destruct (normalized_cron K C m now) as [expr|]; simpl in *.
  - destruct (croniter_init C expr now) as [c|]; [discriminate|].
    simpl in *. now inversion Hs.
  - now inversion Hs.
Qed.

(** A query answers from the schedule and its argument; it leaves the
    schedule in the cache, if there is one. *)
Lemma query_answer (m : ModelMeta K) q now value cache :
  fst (query K C D m q now value cache)
  = answer C D (navigator_schedule K C m now cache) q value
  /\ match navigator_schedule K C m now cache with
     | Return e =>
         exists c, snd (query K C D m q now value cache) = Some c
                   /\ schedule c = e
     | Raise _ => snd (query K C D m q now value cache) = None /\ cache = None
     end.
Proof.
  destruct (navigator_schedule K C m now cache) as [e|ex] eqn:Hs.
  - destruct (to_datetime D value) as [[t|]|ex] eqn:Ht.
    + pose proof (croniter_Return m now value cache e t Hs Ht) as Hc.
      destruct q; unfold query, cron_floor, cron_next, cron_prev;
        rewrite Hc; simpl; rewrite ?Ht; simpl.
      * split; [reflexivity|]. eexists; split; reflexivity.
      * split; [reflexivity|]. eexists; split; reflexivity.
      * destruct (to_datetime D
                    (preserve_time_like_kind D value (next_fire C e t)))
          as [[t'|]|ex'] eqn:Ht'.
        -- rewrite (croniter_Return m now _
                      (Some {| schedule := e; cur := next_fire C e t |})
                      e t' eq_refl Ht'). simpl.
           split; [reflexivity|]. eexists; split; reflexivity.
        -- destruct (croniter_no_time m now _
                       (Some {| schedule := e; cur := next_fire C e t |})
                       e eq_refl Ht') as (c & Hc1 & Hc2).
           rewrite Hc2. simpl. split; [reflexivity|]. now exists c.
        -- destruct (croniter_unreadable m now _
                       (Some {| schedule := e; cur := next_fire C e t |})
                       e ex' eq_refl Ht') as (c & Hc1 & Hc2).
           rewrite Hc2. simpl. split; [reflexivity|]. now exists c.
    + destruct (croniter_no_time m now value cache e Hs Ht) as (c & Hc1 & Hc2).
      destruct q; unfold query, cron_floor, cron_next, cron_prev;
        rewrite Hc2; simpl; rewrite ?Ht; simpl;
        (split; [reflexivity|now exists c]).
    + destruct (croniter_unreadable m now value cache e ex Hs Ht)
        as (c & Hc1 & Hc2).
      destruct q; unfold query, cron_floor, cron_next, cron_prev;
        rewrite Hc2; simpl; rewrite ?Ht; simpl;
        (split; [reflexivity|now exists c]).
  - destruct (croniter_Raise m now value cache ex Hs) as [Hc ->].
    destruct q; unfold query, cron_floor, cron_next, cron_prev;
      rewrite Hc; simpl; now repeat split.
Qed.

End Navigator.

Section Floor.

Context (K : Kinds) (C : Croniter) (D : Dates).
Context (L : CroniterLaws C).

Lemma canonical_parses u : exists e, expand C (canonical u) = Some e.
Proof.
  destruct u; simpl.
  - destruct (expand C "0 0 * * *") as [e|] eqn:E; [now exists e|].
    now destruct (expand_day C L).
  - destruct (expand C "0 * * * *") as [e|] eqn:E; [now exists e|].
    now destruct (expand_hour C L).
  - destruct (expand C "* * * * *") as [e|] eqn:E; [now exists e|].
    now destruct (expand_minute C L).
Qed.

(** A record whose cron parses always gets its navigator. *)
Lemma navigator_schedule_fresh (m : ModelMeta K) now e0 :
  expand C (cron m) = Some e0 ->
  exists e, navigator_schedule K C m now None = Return e.
Proof.
  intros He. unfold navigator_schedule. rewrite normalized_cron_eq.
  destruct (interval_unit_returns K C m now 10 e0 ltac:(lia) He)
    as (g & _ & ->). simpl.
  destruct (canonical_parses (classify g)) as (e & Hx).
  unfold croniter_init. rewrite Hx. simpl. now exists e.
Qed.

(** The floor, on an argument whose next firing time reads back from the
    argument's representation: [cron_floor] answers with the firing time
    before the next firing time after its argument; that instant is a
    firing time of the navigated schedule, is not after the argument, and
    no firing time up to the argument is later; it is the argument itself
    when the argument is a firing time, and the firing time before the
    argument otherwise. *)
Theorem cron_floor_latest (m : ModelMeta K) (now : Z) value cache e t :
  navigator_schedule K C m now cache = Return e ->
  to_datetime D value = Return (Some t) ->
  reads_back D value (next_fire C e t) ->
  let f := prev_fire C e (next_fire C e t) in
  fst (cron_next K C D m now value cache)
  = Return (preserve_time_like_kind D value (next_fire C e t))
  /\ fst (cron_floor K C D m now value cache)
     = Return (preserve_time_like_kind D value f)
  /\ fires C e f = true
  /\ f <= t
  /\ (forall u, fires C e u = true -> u <= t -> u <= f)
  /\ (fires C e t = true -> f = t)
  /\ (fires C e t = false -> f = prev_fire C e t /\ f < t)
  /\ (forall e0, expand C (cron m) = Some e0 ->
        exists e', navigator_schedule K C m now None = Return e').
Proof.
  intros Hs Ht R f.
  pose proof (next_after C L e t) as Hn.
  pose proof (prev_before C L e (next_fire C e t)) as Hp.
  pose proof (prev_fires C L e (next_fire C e t)) as Hf.
  assert (Hle : f <= t).
  { destruct (Z_le_gt_dec f t) as [H|H]; [exact H|].
    pose proof (next_least C L e t f Hf ltac:(lia)). unfold f in *. lia. }
  assert (Hmax : forall u, fires C e u = true -> u <= t -> u <= f).
  { intros u Hu Hut. apply (prev_greatest C L); [exact Hu|lia]. }
  split.
  { destruct (query_answer K C D m Next now value cache) as [H _].
    simpl in H. rewrite H, Hs. simpl. now rewrite Ht. }
  split.
  { destruct (query_answer K C D m Floor now value cache) as [H _].
    simpl in H. rewrite H, Hs. simpl. unfold reads_back in R.
    now rewrite Ht, R. }
  split; [exact Hf|]. split; [exact Hle|]. split; [exact Hmax|].
  split.
  { intros Hft. specialize (Hmax t Hft ltac:(lia)). lia. }
  split.
  { intros Hft.
    assert (Hne : f <> t)
      by (intros E; unfold f in E; rewrite E in Hf; congruence).
    pose proof (prev_fires C L e t) as Hg.
    pose proof (prev_before C L e t) as Hgt.
    pose proof (Hmax _ Hg ltac:(lia)).
    pose proof (prev_greatest C L e t f Hf ltac:(lia)).
    fold f. lia. }
  intros e0. apply navigator_schedule_fresh.
Qed.

End Floor.

Section Stateless.

Context (K : Kinds) (C : Croniter) (D : Dates).

Lemma run_cons (m : ModelMeta K) q now value calls cache :
  run K C D m ((q, now, value) :: calls) cache
  = run K C D m calls (snd (query K C D m q now value cache)).
Proof. reflexivity. Qed.

(** Once there is a cursor in the cache, calls keep its schedule. *)
Lemma run_keeps_schedule (m : ModelMeta K) calls c :
  exists c', run K C D m calls (Some c) = Some c'
             /\ schedule c' = schedule c.
Proof.
  revert c. induction calls as [|[[q now] value] calls IH]; intros c.
  - now exists c.
  - rewrite run_cons.
    destruct (query_answer K C D m q now value (Some c)) as [_ (c1 & H1 & E1)].
    rewrite H1. destruct (IH c1) as (c' & H' & E').
    exists c'. split; [exact H'|]. simpl in E1. congruence.
Qed.




End Stateless.

Lemma cron_floor_latest_witness :
  fst (cron_floor Ref.kinds Ref.croniter Ref.dates (Ref.model "5 * * * *")
         1700000000 (PyStr "1700001000") None)
  = Return (PyStr "1699999200")
  /\ fst (cron_floor Ref.kinds Ref.croniter Ref.dates (Ref.model "5 * * * *")
           1700000000 (PyInt 1699999200) None)
     = Return (PyInt 1699999200).
Proof.
  split.
  - destruct (cron_floor_latest Ref.kinds Ref.croniter Ref.dates
                periodic_laws (Ref.model "5 * * * *")
                1700000000 (PyStr "1700001000") None
                {| Ref.period := 3600; Ref.offset := 0 |} 1700001000)
      as (_ & H & _);
      [vm_compute; reflexivity|reflexivity|vm_compute; reflexivity|].
    rewrite H. vm_compute. reflexivity.
  - destruct (cron_floor_latest Ref.kinds Ref.croniter Ref.dates
                periodic_laws (Ref.model "5 * * * *")
                1700000000 (PyInt 1699999200) None
                {| Ref.period := 3600; Ref.offset := 0 |} 1699999200)
      as (_ & H & _);
      [vm_compute; reflexivity|reflexivity|reflexivity|].
    rewrite H. vm_compute. reflexivity.
Defined.

(** C6 at a calendar date, under an hourly cadence.  The date 2023-01-01
    denotes midnight of that day, which is a firing time, so its floor is
    that very date.  [cron_next] answers with the instant an hour later,
    expressed as a date, which is the argument again; [cron_floor] reads
    that answer back as midnight and returns the firing time before it, an
    hour before midnight, expressed as a date: the day before.  The same
    instant given as a timestamp is its own floor. *)
Theorem cron_floor_misses_date_boundary :
  navigator_schedule Ref.kinds Ref.croniter (Ref.model "0 * * * *")
    1700000000 None
  = Return {| Ref.period := 3600; Ref.offset := 0 |}
  /\ to_datetime Ref.dates (PyStr "2023-01-01") = Return (Some 1672531200)
  /\ fires Ref.croniter {| Ref.period := 3600; Ref.offset := 0 |} 1672531200
     = true
  /\ fst (cron_next Ref.kinds Ref.croniter Ref.dates (Ref.model "0 * * * *")
           1700000000 (PyStr "2023-01-01") None)
     = Return (PyStr "2023-01-01")
  /\ fst (cron_floor Ref.kinds Ref.croniter Ref.dates (Ref.model "0 * * * *")
           1700000000 (PyStr "2023-01-01") None)
     = Return (PyStr "2022-12-31")
  /\ to_datetime Ref.dates (PyStr "2022-12-31") = Return (Some 1672444800)
  /\ fst (cron_floor Ref.kinds Ref.croniter Ref.dates (Ref.model "0 * * * *")
           1700000000 (PyInt 1672531200) None)
     = Return (PyInt 1672531200).
Proof. repeat split; vm_compute; reflexivity. Qed.



(** * Further properties *)

(** ** Queries on instants *)

Section Instants.

Context (K : Kinds) (C : Croniter) (D : Dates).
Context (L : CroniterLaws C).

(** A query on a value that denotes [t] returns the instant
    [instant_of e q t], expressed like the value, and leaves a cursor on
    the same schedule; the floor needs the next firing time to read back
    from the representation of the value. *)
Lemma query_instant (m : ModelMeta K) q now value cache e t :
  navigator_schedule K C m now cache = Return e ->
  to_datetime D value = Return (Some t) ->
  (q = Floor -> reads_back D value (next_fire C e t)) ->
  exists c,
    query K C D m q now value cache
    = (Return (preserve_time_like_kind D value (instant_of C e q t)), Some c)
    /\ schedule c = e.
Proof.
  intros Hs Ht Hr.
  destruct (query_answer K C D m q now value cache) as [Hf Hc].
  rewrite Hs in Hf, Hc. destruct Hc as (c & Hc & Hsc).
  unfold answer in Hf. simpl in Hf. rewrite Ht in Hf.
  assert (Hv : fst (query K C D m q now value cache)
               = Return (preserve_time_like_kind D value (instant_of C e q t))).
  { rewrite Hf. destruct q; simpl; [reflexivity|reflexivity|].
    specialize (Hr eq_refl). unfold reads_back in Hr. now rewrite Hr. }
  exists c. split; [|exact Hsc].
  destruct (query K C D m q now value cache) as [r c0]. simpl in *.
  now rewrite Hv, Hc.
Qed.

Lemma floor_le e t : prev_fire C e (next_fire C e t) <= t.
Proof.
  pose proof (prev_before C L e (next_fire C e t)) as Hp.
  pose proof (prev_fires C L e (next_fire C e t)) as Hf.
  destruct (Z_le_gt_dec (prev_fire C e (next_fire C e t)) t) as [H|H];
    [exact H|].
  pose proof (next_least C L e t _ Hf ltac:(lia)). lia.
Qed.

Lemma floor_of_firing e t :
  fires C e t = true -> prev_fire C e (next_fire C e t) = t.
Proof.
  intros Ht. pose proof (floor_le e t).
  pose proof (next_after C L e t).
  pose proof (prev_greatest C L e (next_fire C e t) t Ht ltac:(lia)). lia.
Qed.

Lemma next_of_firing_prev e t :
  fires C e t = true -> next_fire C e (prev_fire C e t) = t.
Proof.
  intros Ht.
  pose proof (prev_before C L e t) as Hp.
  pose proof (next_least C L e (prev_fire C e t) t Ht Hp) as Hle.
  pose proof (next_after C L e (prev_fire C e t)) as Hgt.
  pose proof (next_fires C L e (prev_fire C e t)) as Hf.
  destruct (Z.eq_dec (next_fire C e (prev_fire C e t)) t) as [E|E];
    [exact E|].
  pose proof (prev_greatest C L e t _ Hf ltac:(lia)). lia.
Qed.

Lemma next_of_floor e t :
  next_fire C e (prev_fire C e (next_fire C e t)) = next_fire C e t.
Proof.
  apply next_of_firing_prev. apply (next_fires C L).
Qed.

(** The nearest firing times: [cron_next] answers with the earliest firing
    time after the instant of its argument and [cron_prev] with the latest
    one before it, each expressed like the argument.  The instant that is
    expressed is never the instant of the argument, whatever the
    representation then makes of it. *)
Theorem cron_next_prev_nearest (m : ModelMeta K) (now : Z) value cache e t :
  navigator_schedule K C m now cache = Return e ->
  to_datetime D value = Return (Some t) ->
  (exists n,
     fst (cron_next K C D m now value cache)
     = Return (preserve_time_like_kind D value n)
     /\ fires C e n = true /\ t < n
     /\ forall u, fires C e u = true -> t < u -> n <= u)
  /\ (exists p,
        fst (cron_prev K C D m now value cache)
        = Return (preserve_time_like_kind D value p)
        /\ fires C e p = true /\ p < t
        /\ forall u, fires C e u = true -> u < t -> u <= p).
Proof.
  intros Hs Ht. split.
  - destruct (query_instant m Next now value cache e t Hs Ht)
      as (c & Hq & _); [discriminate|].
    exists (next_fire C e t). simpl in Hq. rewrite Hq. simpl.
    split; [reflexivity|]. split; [apply (next_fires C L)|].
    split; [apply (next_after C L)|]. intros u. apply (next_least C L).
  - destruct (query_instant m Prev now value cache e t Hs Ht)
      as (c & Hq & _); [discriminate|].
    exists (prev_fire C e t). simpl in Hq. rewrite Hq. simpl.
    split; [reflexivity|]. split; [apply (prev_fires C L)|].
    split; [apply (prev_before C L)|]. intros u. apply (prev_greatest C L).
Qed.

(** Two queries in a row on one object, when the representation of the
    argument and that of the first answer hold every instant: the second
    query answers as if it were alone, on the instant that the first
    returned.  So the floor of a floor is that floor, the next firing time
    after a floor is the next one after the argument, the previous one
    before [cron_next] is the floor, and next-after-previous gives the
    argument back exactly when the argument is a firing time. *)
Theorem queries_compose (m : ModelMeta K) value cache e t q1 q2
    (now1 now2 : Z) :
  navigator_schedule K C m now1 cache = Return e ->
  to_datetime D value = Return (Some t) ->
  keeps_instants D value ->
  keeps_instants D (preserve_time_like_kind D value (instant_of C e q1 t)) ->
  exists v1 c1 v2 c2,
    query K C D m q1 now1 value cache = (Return v1, Some c1)
    /\ to_datetime D v1 = Return (Some (instant_of C e q1 t))
    /\ query K C D m q2 now2 v1 (Some c1) = (Return v2, Some c2)
    /\ to_datetime D v2
       = Return (Some (instant_of C e q2 (instant_of C e q1 t)))
    /\ instant_of C e Floor (instant_of C e Floor t) = instant_of C e Floor t
    /\ instant_of C e Next (instant_of C e Floor t) = instant_of C e Next t
    /\ instant_of C e Floor (instant_of C e Next t) = instant_of C e Next t
    /\ instant_of C e Prev (instant_of C e Next t) = instant_of C e Floor t
    /\ (instant_of C e Next (instant_of C e Prev t) = t
        <-> fires C e t = true).
Proof.
  intros Hs Ht Hk Hk1.
  destruct (query_instant m q1 now1 value cache e t Hs Ht)
    as (c1 & Hq1 & Hc1); [intros _; apply Hk|].
  assert (Hs2 : navigator_schedule K C m now2 (Some c1) = Return e)
    by (simpl; now rewrite Hc1).
  pose proof (Hk (instant_of C e q1 t)) as Hv1. unfold reads_back in Hv1.
  destruct (query_instant m q2 now2 _ (Some c1) e _ Hs2 Hv1)
    as (c2 & Hq2 & _); [intros _; apply Hk1|].
  eexists _, c1, _, c2.
  split; [exact Hq1|]. split; [exact Hv1|]. split; [exact Hq2|].
  split; [apply Hk1|].
  simpl.
  split; [apply floor_of_firing, (prev_fires C L)|].
  split; [apply next_of_floor|].
  split; [apply floor_of_firing, (next_fires C L)|].
  split; [reflexivity|].
  split.
  - intros E. rewrite <- E. apply (next_fires C L).
  - apply next_of_firing_prev.
Qed.

End Instants.

Lemma cron_next_prev_nearest_witness :
  fst (cron_next Ref.kinds Ref.croniter Ref.dates (Ref.model "5 * * * *")
         1700000000 (PyInt 1699999200) None)
  = Return (PyInt 1700002800)
  /\ fst (cron_prev Ref.kinds Ref.croniter Ref.dates (Ref.model "5 * * * *")
           1700000000 (PyStr "1699999200") None)
     = Return (PyStr "1699995600").
Proof.
  destruct (cron_next_prev_nearest Ref.kinds Ref.croniter Ref.dates
              periodic_laws (Ref.model "5 * * * *")
              1700000000 (PyInt 1699999200) None
              {| Ref.period := 3600; Ref.offset := 0 |} 1699999200)
    as ((n & Hn & Hfn & Hgt & Hleast) & _);
    [vm_compute; reflexivity|reflexivity|].
  destruct (cron_next_prev_nearest Ref.kinds Ref.croniter Ref.dates
              periodic_laws (Ref.model "5 * * * *")
              1700000000 (PyStr "1699999200") None
              {| Ref.period := 3600; Ref.offset := 0 |} 1699999200)
    as (_ & (p & Hp & Hfp & Hlt & Hgreatest));
    [vm_compute; reflexivity|reflexivity|].
  split.
  - rewrite Hn. f_equal. simpl. f_equal.
    assert (Hfire : fires Ref.croniter
                      {| Ref.period := 3600; Ref.offset := 0 |} 1700002800
                    = true) by reflexivity.
    pose proof (Hleast 1700002800 Hfire ltac:(lia)) as Hle.
    apply (proj1 (periodic_fires_every 3600 0 n)) in Hfn.
    pose proof (Z.div_mod (n - 0) 3600 ltac:(lia)) as E.
    rewrite Hfn in E. lia.
  - rewrite Hp.
    assert (Hfire : fires Ref.croniter
                      {| Ref.period := 3600; Ref.offset := 0 |} 1699995600
                    = true) by reflexivity.
    pose proof (Hgreatest 1699995600 Hfire ltac:(lia)) as Hle.
    apply (proj1 (periodic_fires_every 3600 0 p)) in Hfp.
    pose proof (Z.div_mod (p - 0) 3600 ltac:(lia)) as E.
    rewrite Hfp in E.
    assert (p = 1699995600) by lia. now subst p.
Defined.

Lemma queries_compose_witness :
  exists v1 c1 v2 c2,
    query Ref.kinds Ref.croniter Ref.dates (Ref.model "5 * * * *") Prev
      1700000000 (PyInt 1699999200) None = (Return v1, Some c1)
    /\ query Ref.kinds Ref.croniter Ref.dates (Ref.model "5 * * * *") Next
         1700000500 v1 (Some c1) = (Return v2, Some c2)
    /\ to_datetime Ref.dates v2 = Return (Some 1699999200).
Proof.
  destruct (queries_compose Ref.kinds Ref.croniter Ref.dates
              periodic_laws (Ref.model "5 * * * *")
              (PyInt 1699999200) None
              {| Ref.period := 3600; Ref.offset := 0 |} 1699999200
              Prev Next 1700000000 1700000500)
    as (v1 & c1 & v2 & c2 & H1 & _ & H2 & H3 & _);
    [vm_compute; reflexivity|reflexivity
    |intros ts; reflexivity|intros ts; reflexivity|].
  exists v1, c1, v2, c2. split; [exact H1|]. split; [exact H2|].
  rewrite H3. reflexivity.
Defined.

(** ** Cadence: edge cases and monotonicity *)

Section Cadence.

Context (K : Kinds) (C : Croniter) (D : Dates) (G : Sqlglot).

(** A record whose cron does not parse (the empty cron passes the
    validator) cannot be sampled nor navigated: every cadence method raises
    croniter's own error, and the cache stays empty. *)
Theorem unparseable_cron_breaks_cadence (m : ModelMeta K) :
  expand C (cron m) = None ->
  (forall now n,
     interval_unit K C m now n = Raise (CroniterBadCronError (cron m)))
  /\ (forall now,
        normalized_cron K C m now = Raise (CroniterBadCronError (cron m)))
  /\ (forall q now value,
        query K C D m q now value None
        = (Raise (CroniterBadCronError (cron m)), None))
  /\ (forall raw : RawModel K,
        ModelMeta_init K C D G raw = Return m ->
        raw_cron K raw = Some (PyStr "") -> cron m = "").
Proof.
  intros He.
  assert (Hi : forall now n,
             interval_unit K C m now n = Raise (CroniterBadCronError (cron m))).
  { intros now n. unfold interval_unit, croniter_init. now rewrite He. }
  assert (Hn : forall now,
             normalized_cron K C m now = Raise (CroniterBadCronError (cron m))).
  { intros now. unfold normalized_cron. now rewrite Hi. }
  split; [exact Hi|]. split; [exact Hn|]. split.
  - intros q now value.
    assert (Hc : croniter K C D m now value None
                 = (Raise (CroniterBadCronError (cron m)), None)).
    { unfold croniter. now rewrite Hn. }
    destruct q; unfold query, cron_floor, cron_next, cron_prev;
      now rewrite Hc.
  - intros raw Hm Hraw. apply ModelMeta_init_accepted in Hm.
    destruct Hm as ((_ & _ & _ & Hc & _) & _).
    unfold field_ok in Hc. rewrite Hraw in Hc. simpl in Hc.
    now inversion Hc.
Qed.

Lemma take_samples_app n k (c : cursor C) :
  exists l, take_samples C (n + k) c = (take_samples C n c ++ l)%list.
Proof.
  revert c. induction n as [|n IH]; intros c; simpl.
  - now exists (take_samples C k c).
  - destruct (IH {| schedule := schedule c;
                    cur := next_fire C (schedule c) (cur c) |}) as (l & Hl).
    exists l. now rewrite Hl.
Qed.

Lemma gaps_cons2 a b r : gaps (a :: b :: r) = (b - a) :: gaps (b :: r).
Proof. reflexivity. Qed.

Lemma gaps_app_In l l' g : In g (gaps l) -> In g (gaps (l ++ l')).
Proof.
  induction l as [|a [|b r] IH]; [simpl; tauto|simpl; tauto|].
  change (In g (gaps (a :: b :: r))
          -> In g (gaps (a :: b :: (r ++ l')%list))).
  rewrite !gaps_cons2. intros [H|H]; [now left|right].
  now apply IH.
Qed.

Lemma classify_monotone g g' :
  g' <= g -> coarseness (classify g') <= coarseness (classify g).
Proof.
  intros H. unfold classify.
  destruct (86400 <=? g') eqn:A', (3600 <=? g') eqn:B',
           (86400 <=? g) eqn:A, (3600 <=? g) eqn:B; simpl; lia.
Qed.

(** Taking more samples never makes the inferred unit coarser: the samples
    of a smaller size are the first samples of a larger one. *)
Theorem more_samples_finer_unit (m : ModelMeta K) (now n n' : Z) e :
  expand C (cron m) = Some e -> 2 <= n -> n <= n' ->
  exists u u',
    interval_unit K C m now n = Return u
    /\ interval_unit K C m now n' = Return u'
    /\ coarseness u' <= coarseness u.
Proof.
  intros He Hn Hn'.
  destruct (interval_unit_returns K C m now n e Hn He) as (g & Hg & Hu).
  destruct (interval_unit_returns K C m now n' e ltac:(lia) He)
    as (g' & Hg' & Hu').
  exists (classify g), (classify g'). split; [exact Hu|]. split; [exact Hu'|].
  apply classify_monotone.
  set (c := {| schedule := e; cur := now |}) in *.
  destruct (min_spec _ (gaps_of_many C n c Hn)) as (g0 & Hg0 & Hin & _).
  rewrite Hg in Hg0. inversion Hg0; subst g0.
  destruct (min_spec _ (gaps_of_many C n' c ltac:(lia)))
    as (g1 & Hg1 & _ & Hle).
  rewrite Hg' in Hg1. inversion Hg1; subst g1.
  apply Hle.
  replace (Z.to_nat n') with (Z.to_nat n + (Z.to_nat n' - Z.to_nat n))%nat
    by lia.
  destruct (take_samples_app (Z.to_nat n) (Z.to_nat n' - Z.to_nat n) c)
    as (l & ->).
  now apply gaps_app_In.
Qed.

End Cadence.

Section EvenSchedules.

Context (K : Kinds) (C : Croniter) (D : Dates) (L : CroniterLaws C).

(** For a schedule that fires every [p] seconds the inferred unit depends
    on [p] alone, not on the clock, the offset or the sample size; the
    normalized cron is the canonical expression of that unit, and the
    first query caches its expansion. *)
Theorem even_schedule_cadence (m : ModelMeta K) e p o :
  expand C (cron m) = Some e -> 0 < p -> fires_every C e p o ->
  (forall now n, 2 <= n ->
     interval_unit K C m now n
     = Return (if 86400 <=? p then DAY
               else if 3600 <=? p then HOUR else MINUTE))
  /\ (forall now,
        normalized_cron K C m now
        = Return (if 86400 <=? p then "0 0 * * *"
                  else if 3600 <=? p then "0 * * * *" else "* * * * *"))
  /\ clock_independent K C m.
Proof.
  intros He Hp Hf.
  assert (Hi : forall now n, 2 <= n ->
             interval_unit K C m now n = Return (classify p)).
  { intros now n Hn. now apply (interval_unit_every K C L m now n e p o). }
  assert (Hn : forall now,
             normalized_cron K C m now = Return (canonical (classify p))).
  { intros now. rewrite normalized_cron_eq, Hi by lia. reflexivity. }
  split; [|split].
  - intros now n Hn'. rewrite (Hi now n Hn'). unfold classify.
    now destruct (86400 <=? p), (3600 <=? p).
  - intros now. rewrite Hn. unfold classify.
    now destruct (86400 <=? p), (3600 <=? p).
  - intros now now'. now rewrite !Hn.
Qed.

(** The first query on a fresh object whose cron parses leaves in the
    cache a cursor on the expansion of the canonical expression of the
    unit inferred at that moment, also when the query itself fails for
    want of an instant; later calls never replace that schedule. *)
Theorem first_use_caches_canonical (m : ModelMeta K) e0 q (now : Z) value :
  expand C (cron m) = Some e0 ->
  exists u e c,
    interval_unit K C m now 10 = Return u
    /\ expand C (canonical u) = Some e
    /\ snd (query K C D m q now value None) = Some c
    /\ schedule c = e
    /\ forall calls, exists c',
         run K C D m calls (Some c) = Some c' /\ schedule c' = e.
Proof.
  intros He.
  destruct (interval_unit_returns K C m now 10 e0 ltac:(lia) He)
    as (g & _ & Hu).
  destruct (canonical_parses C L (classify g)) as (e & Hx).
  assert (Hs : navigator_schedule K C m now None = Return e).
  { unfold navigator_schedule. rewrite normalized_cron_eq, Hu. simpl.
    unfold croniter_init. now rewrite Hx. }
  destruct (query_answer K C D m q now value None) as [_ Hc].
  rewrite Hs in Hc. destruct Hc as (c & Hc & Hsc).
  exists (classify g), e, c.
  split; [exact Hu|]. split; [exact Hx|]. split; [exact Hc|].
  split; [exact Hsc|].
  intros calls. destruct (run_keeps_schedule K C D m calls c) as (c' & H & E).
  exists c'. split; [exact H|]. congruence.
Qed.

End EvenSchedules.

Lemma unparseable_cron_breaks_cadence_witness :
  interval_unit Ref.kinds Ref.croniter (Ref.model "") 1700000000 10
  = Raise (CroniterBadCronError "")
  /\ query Ref.kinds Ref.croniter Ref.dates (Ref.model "") Floor 1700000000
       (PyInt 5) None = (Raise (CroniterBadCronError ""), None).
Proof.
  destruct (unparseable_cron_breaks_cadence Ref.kinds Ref.croniter Ref.dates
              Ref.sqlglot (Ref.model "") eq_refl) as (I & _ & Q & _).
  split; [apply I|apply Q].
Defined.

Lemma more_samples_finer_unit_witness :
  exists u u',
    interval_unit Ref.kinds Ref.croniter (Ref.model "5 * * * *")
      1700000000 2 = Return u
    /\ interval_unit Ref.kinds Ref.croniter (Ref.model "5 * * * *")
         1700000000 10 = Return u'
    /\ coarseness u' <= coarseness u.
Proof.
  apply (more_samples_finer_unit Ref.kinds Ref.croniter
           (Ref.model "5 * * * *") 1700000000 2 10
           {| Ref.period := 3600; Ref.offset := 300 |});
    [reflexivity|lia|lia].
Defined.

Lemma even_schedule_cadence_witness :
  interval_unit Ref.kinds Ref.croniter (Ref.model "5 * * * *") 1700000000 4
  = Return HOUR
  /\ normalized_cron Ref.kinds Ref.croniter (Ref.model "5 * * * *") 1700000000
     = Return "0 * * * *".
Proof.
  destruct (even_schedule_cadence Ref.kinds Ref.croniter periodic_laws
              (Ref.model "5 * * * *")
              {| Ref.period := 3600; Ref.offset := 300 |} 3600 300
              eq_refl ltac:(lia) (periodic_fires_every 3600 300))
    as (I & N & _).
  split; [apply (I 1700000000 4); lia|apply N].
Defined.

Lemma first_use_caches_canonical_witness :
  exists u e c,
    interval_unit Ref.kinds Ref.croniter (Ref.model "*/15 * * * *")
      1700000000 10 = Return u
    /\ expand Ref.croniter (canonical u) = Some e
    /\ snd (query Ref.kinds Ref.croniter Ref.dates
              (Ref.model "*/15 * * * *") Next 1700000000 PyNone None)
       = Some c
    /\ schedule c = e.
Proof.
  destruct (first_use_caches_canonical Ref.kinds Ref.croniter Ref.dates
              periodic_laws (Ref.model "*/15 * * * *")
              {| Ref.period := 900; Ref.offset := 0 |} Next 1700000000
              PyNone eq_refl) as (u & e & c & H1 & H2 & H3 & H4 & _).
  exists u, e, c. exact (conj H1 (conj H2 (conj H3 H4))).
Defined.

(** ** Field coercions *)

Section Coercions.

Context (K : Kinds) (C : Croniter) (D : Dates) (G : Sqlglot).

(** Partition columns given as expressions: a tuple gives the names of its
    elements, in order; any other expression gives exactly one column; so
    on a kind that is not materialized the only expression that the
    constructor accepts for [partitioned_by] is the empty tuple. *)
Theorem partition_columns_from_expressions :
  (forall es,
     list_field (_value_or_tuple_validator (SeqValue (PyExp (Tuple es))))
     = Return (Some (map Exp.name es)))
  /\ (forall e, (forall es, e <> Tuple es) ->
        list_field (_value_or_tuple_validator (SeqValue (PyExp e)))
        = Return (Some [Exp.name e]))
  /\ (forall (raw : RawModel K) m es,
        ModelMeta_init K C D G raw = Return m ->
        raw_partitioned_by K raw = Some (SeqValue (PyExp (Tuple es))) ->
        partitioned_by_ m = Some (map Exp.name es))
  /\ (forall (raw : RawModel K) m e,
        ModelMeta_init K C D G raw = Return m ->
        is_materialized K (kind m) = false ->
        raw_partitioned_by K raw = Some (SeqValue (PyExp e)) ->
        e = Tuple []).
Proof.
  split; [reflexivity|].
  split; [intros e He; destruct e; try reflexivity; now destruct (He expressions)|].
  split.
  - intros raw m es Hm Hraw. apply ModelMeta_init_accepted in Hm.
    destruct Hm as ((_ & _ & _ & _ & _ & _ & _ & _ & _ & Hp & _) & _).
    unfold field_ok in Hp. rewrite Hraw in Hp. simpl in Hp.
    now inversion Hp.
  - intros raw m e Hm Hk Hraw. apply ModelMeta_init_accepted in Hm.
    destruct Hm as ((_ & _ & _ & _ & _ & _ & _ & _ & _ & Hp & _) & Hroot).
    unfold field_ok in Hp. rewrite Hraw in Hp.
    unfold _kind_validator in Hroot. simpl in Hroot. rewrite Hk in Hroot.
    simpl in Hroot.
    destruct e; simpl in Hp; inversion Hp as [Hl]; rewrite <- Hl in Hroot;
      try discriminate Hroot.
    destruct expressions; [reflexivity|discriminate Hroot].
Qed.

Lemma table_names_Return es ts :
  table_names G es = Return ts ->
  forall x, In x ts <->
    exists t, In t es
      /\ table_name G (if is_string t then Exp.name t else sql G t)
         = Return x.
Proof.
  revert ts. induction es as [|t es IH]; simpl; intros ts H x.
  - inversion H. simpl. split; [tauto|]. now intros (t & [] & _).
  - destruct (table_name G (if is_string t then Exp.name t else sql G t))
      as [y|] eqn:Ey; [|discriminate]. simpl in H.
    destruct (table_names G es) as [ys|] eqn:Eys; [|discriminate].
    simpl in H. inversion H; subst. simpl. rewrite (IH ys eq_refl x). split.
    + intros [<-|(u & Hu & Hx)]; [now exists t; auto|].
      exists u. auto.
    + intros (u & [<-|Hu] & Hx).
      * left. congruence.
      * right. now exists u.
Qed.

Lemma table_names_Raise es ex :
  table_names G es = Raise ex ->
  exists t, In t es
    /\ table_name G (if is_string t then Exp.name t else sql G t) = Raise ex.
Proof.
  induction es as [|t es IH]; simpl; [discriminate|].
  destruct (table_name G (if is_string t then Exp.name t else sql G t))
    as [y|e0] eqn:Ey; simpl.
  - destruct (table_names G es) as [ys|e1]; simpl; [discriminate|].
    intros H; inversion H; subst.
    destruct (IH eq_refl) as (u & Hu & Hx). exists u. auto.
  - intros H; inversion H; subst. exists t. auto.
Qed.

Lemma table_names_total es :
  (forall t, In t es ->
     exists x, table_name G (if is_string t then Exp.name t else sql G t)
               = Return x) ->
  exists ts, table_names G es = Return ts.
Proof.
  intros H. destruct (table_names G es) as [ts|ex] eqn:E; [now exists ts|].
  destruct (table_names_Raise es ex E) as (t & Ht & Hx).
  destruct (H t Ht) as (x & Hx'). congruence.
Qed.

(** Dependencies are a set: an array and a tuple with the same elements
    are treated alike.  When [table_name] accepts every element, a text
    literal by its text and any other element by its SQL, the result holds
    the names of the tables, without duplicates; otherwise the validator
    raises what [table_name] raised on one of the elements.  A lone
    expression is always taken by its SQL, a text literal too, and what
    [table_name] raises on it is what the validator raises.  The
    dependencies of a constructed record hold no duplicate. *)
Theorem depends_on_is_a_set :
  (forall es,
     _depends_on_validator G (SeqValue (PyExp (Array es)))
     = _depends_on_validator G (SeqValue (PyExp (Tuple es))))
  /\ (forall es,
        (forall t, In t es ->
           exists x,
             table_name G (if is_string t then Exp.name t else sql G t)
             = Return x) ->
        exists l,
          _depends_on_validator G (SeqValue (PyExp (Tuple es)))
          = Return (SeqList l)
          /\ NoDup l
          /\ forall x, In x l <->
               exists t, In t es
                 /\ table_name G (if is_string t then Exp.name t
                                  else sql G t) = Return x)
  /\ (forall es ex,
        _depends_on_validator G (SeqValue (PyExp (Tuple es))) = Raise ex ->
        exists t, In t es
          /\ table_name G (if is_string t then Exp.name t else sql G t)
             = Raise ex)
  /\ (forall e, (forall es, e <> Array es) -> (forall es, e <> Tuple es) ->
        _depends_on_validator G (SeqValue (PyExp e))
        = bind (table_name G (sql G e)) (fun t => Return (SeqList [t])))
  /\ (forall (raw : RawModel K) m l,
        ModelMeta_init K C D G raw = Return m ->
        depends_on_ m = Some l -> NoDup l).
Proof.
  split; [reflexivity|]. split; [|split; [|split]].
  - intros es H. destruct (table_names_total es H) as (ts & Hts).
    exists (unique ts). simpl. rewrite Hts. simpl.
    split; [reflexivity|]. split; [apply unique_NoDup|].
    intros x. rewrite unique_In. now apply table_names_Return.
  - intros es ex. simpl.
    destruct (table_names G es) as [ts|e0] eqn:E; simpl; [discriminate|].
    intros H; inversion H; subst. now apply table_names_Raise.
  - intros e Ha Ht. destruct e; try reflexivity.
    + now destruct (Ht expressions).
    + now destruct (Ha expressions).
  - intros raw m l Hm Hl. apply ModelMeta_init_accepted in Hm.
    destruct Hm as ((_ & _ & _ & _ & _ & _ & _ & _ & _ & _ & Hd & _) & _).
    unfold field_ok in Hd. rewrite Hl in Hd.
    destruct (raw_depends_on K raw) as [v|]; [|discriminate].
    destruct (_depends_on_validator G v) as [[[| | |]|items]|];
      simpl in Hd; inversion Hd. apply unique_NoDup.
Qed.

(** The start of a constructed record is a value for which [to_datetime]
    returns a datetime, and is never an expression: an expression is
    replaced by its text.  What [to_datetime] raises on a value is what the
    validator raises; the ConfigError that quotes the value is raised when
    [to_datetime] returns a false value; in both cases no record is
    constructed. *)
Theorem start_denotes_an_instant :
  (forall (raw : RawModel K) m w,
     ModelMeta_init K C D G raw = Return m -> start m = Some w ->
     (exists t, to_datetime D w = Return (Some t))
     /\ (forall e, w <> PyExp e)
     /\ (forall e, raw_start K raw = Some (PyExp e) -> w = PyStr (Exp.name e)))
  /\ (forall v ex,
        to_datetime D
          (match v with PyExp e => PyStr (Exp.name e) | _ => v end)
        = Raise ex ->
        _date_validator D v = Raise ex
        /\ forall raw : RawModel K, raw_start K raw = Some v ->
             forall m, ModelMeta_init K C D G raw <> Return m)
  /\ (forall v text,
        to_datetime D
          (match v with PyExp e => PyStr (Exp.name e) | _ => v end)
        = Return None ->
        str v = Return text ->
        _date_validator D v
        = Raise (ConfigError ("'" ++ text ++ "' not a valid date time"))
        /\ forall raw : RawModel K, raw_start K raw = Some v ->
             forall m, ModelMeta_init K C D G raw <> Return m).
Proof.
  split; [|split].
  - intros raw m w Hm Hw. apply ModelMeta_init_accepted in Hm.
    destruct Hm as ((_ & _ & _ & _ & _ & _ & Hs & _) & _).
    unfold field_ok in Hs. rewrite Hw in Hs.
    destruct (raw_start K raw) as [v|]; [|discriminate].
    unfold _date_validator in Hs.
    destruct (to_datetime D (match v with
                             | PyExp e => PyStr (Exp.name e)
                             | _ => v
                             end)) as [[t|]|] eqn:Ht;
      [|simpl in Hs;
        destruct (str (match v with
                       | PyExp e => PyStr (Exp.name e)
                       | _ => v
                       end)); discriminate
       |discriminate].
    simpl in Hs.
    assert (Hw' : w = match v with PyExp e => PyStr (Exp.name e) | _ => v end).
    { destruct v; simpl in Hs; inversion Hs; reflexivity. }
    split; [exists t; now rewrite Hw'|].
    split.
    + intros e He. rewrite Hw' in He. now destruct v.
    + intros e He. inversion He; subst. reflexivity.
  - intros v ex Hv. split.
    + unfold _date_validator. now rewrite Hv.
    + intros raw Hraw m Hm. apply ModelMeta_init_accepted in Hm.
      destruct Hm as ((_ & _ & _ & _ & _ & _ & Hs & _) & _).
      unfold field_ok in Hs. rewrite Hraw in Hs.
      unfold _date_validator in Hs. rewrite Hv in Hs. discriminate.
  - intros v text Hv Ht.
    assert (Hd : _date_validator D v
                 = Raise (ConfigError ("'" ++ text ++ "' not a valid date time"))).
    { unfold _date_validator. rewrite Hv. simpl.
      destruct v; simpl in *; first [now rewrite Ht|now inversion Ht]. }
    split; [exact Hd|].
    intros raw Hraw m Hm. apply ModelMeta_init_accepted in Hm.
    destruct Hm as ((_ & _ & _ & _ & _ & _ & Hs & _) & _).
    unfold field_ok in Hs. rewrite Hraw, Hd in Hs. discriminate.
Qed.



End Coercions.

Lemma partition_columns_from_expressions_witness :
  exists m,
    Ref.init (Ref.definition (Some (KindValue (PyStr "FULL"))) None None
                (Some (SeqValue
                         (PyExp (Tuple [Identifier "ds"; Identifier "region"])))))
    = Return m
    /\ partitioned_by_ m = Some ["ds"; "region"].
Proof.
  destruct (partition_columns_from_expressions Ref.kinds Ref.croniter
              Ref.dates Ref.sqlglot) as (_ & _ & H & _).
  eexists. split; [vm_compute; reflexivity|].
  eapply (H (Ref.definition (Some (KindValue (PyStr "FULL"))) None None
               (Some (SeqValue
                        (PyExp (Tuple [Identifier "ds"; Identifier "region"])))))
            _ [Identifier "ds"; Identifier "region"]);
    [vm_compute; reflexivity|reflexivity].
Defined.

Lemma depends_on_is_a_set_witness :
  (exists l,
     _depends_on_validator Ref.sqlglot
       (SeqValue (PyExp (Tuple [Literal "db.t" true; Identifier "db.u";
                                Literal "db.t" true])))
     = Return (SeqList l)
     /\ NoDup l)
  /\ _depends_on_validator Ref.sqlglot
       (SeqValue (PyExp (Literal "db.t" true)))
     = Raise (ParseError "Invalid expression / Unexpected token: 'db.t'").
Proof.
  destruct (depends_on_is_a_set Ref.kinds Ref.croniter Ref.dates Ref.sqlglot)
    as (_ & T & _ & H & _).
  split.
  - destruct (T [Literal "db.t" true; Identifier "db.u"; Literal "db.t" true])
      as (l & Hl & Hn & _).
    + intros t [<-|[<-|[<-|[]]]]; eexists; reflexivity.
    + now exists l.
  - rewrite (H (Literal "db.t" true)); [reflexivity|discriminate|discriminate].
Defined.

Lemma start_denotes_an_instant_witness :
  _date_validator Ref.dates (PyStr "soon")
  = Raise (ValueError "Could not convert `soon` to datetime.")
  /\ Ref.init {| raw_name := Some (PyStr "db.events"); raw_kind := None;
                 raw_dialect := None; raw_cron := None; raw_owner := None;
                 raw_description := None;
                 raw_start := Some (PyStr "soon");
                 raw_batch_size := None; raw_storage_format := None;
                 raw_partitioned_by := None; raw_depends_on := None;
                 raw_columns := None |} <> Return (Ref.model "@daily").
Proof.
  destruct (start_denotes_an_instant Ref.kinds Ref.croniter Ref.dates
              Ref.sqlglot) as (_ & H & _).
  destruct (H (PyStr "soon")
              (ValueError "Could not convert `soon` to datetime.") eq_refl)
    as [Hv Hr].
  split; [exact Hv|]. now apply Hr.
Defined.


(** ** Dicts built by the validators *)

Section Dicts.

Context {V : Type}.

Lemma dict_get_set_same k (v : V) d : dict_get k (dict_set k v d) = Some v.
Proof.
  induction d as [|[k' v'] d IH]; simpl.
  - now rewrite String.eqb_refl.
  - destruct (String.eqb k k') eqn:E; simpl; rewrite ?String.eqb_refl, ?E;
      auto.
Qed.

Lemma dict_get_set_other k k' (v : V) d :
  k <> k' -> dict_get k (dict_set k' v d) = dict_get k d.
Proof.
  intros Hne. apply String.eqb_neq in Hne.
  induction d as [|[k2 v2] d IH]; simpl.
  - now rewrite Hne.
  - destruct (String.eqb k' k2) eqn:E; simpl.
    + apply String.eqb_eq in E. subst k2. now rewrite Hne.
    + destruct (String.eqb k k2); auto.
Qed.

Lemma dict_set_keys k (v : V) d x :
  In x (map fst (dict_set k v d)) <-> x = k \/ In x (map fst d).
Proof.
  induction d as [|[k' v'] d IH]; simpl.
  - intuition.
  - destruct (String.eqb_spec k k') as [->|Hne]; simpl.
    + intuition.
    + rewrite IH. intuition.
Qed.

Lemma dict_set_NoDup k (v : V) d :
  NoDup (map fst d) -> NoDup (map fst (dict_set k v d)).
Proof.
  induction d as [|[k' v'] d IH]; simpl; intros H.
  - constructor; [tauto|constructor].
  - inversion H as [|? ? Hin Hd]; subst.
    destruct (String.eqb_spec k k') as [->|Hne]; simpl.
    + now constructor.
    + constructor; [|now apply IH].
      rewrite dict_set_keys. intros [E|E]; [congruence|tauto].
Qed.

Lemma dict_get_app k (l l' : list (string * V)) :
  dict_get k (l ++ l')
  = match dict_get k l with Some v => Some v | None => dict_get k l' end.
Proof.
  induction l as [|[k' v'] l IH]; simpl; [reflexivity|].
  now destruct (String.eqb k k').
Qed.

(** Filling a dict entry by entry: the last entry for a key wins. *)
Lemma dict_fill (items : list (string * V)) d0 :
  let d := fold_left (fun d item => dict_set (fst item) (snd item) d)
             items d0 in
  (NoDup (map fst d0) -> NoDup (map fst d))
  /\ forall k, dict_get k d
               = match dict_get k (List.rev items) with
                 | Some v => Some v
                 | None => dict_get k d0
                 end.
Proof.
  revert d0. induction items as [|[k v] items IH]; intros d0; simpl.
  - split; [auto|reflexivity].
  - destruct (IH (dict_set k v d0)) as [Hn Hg]. split.
    + intros H. apply Hn. now apply dict_set_NoDup.
    + intros k'. rewrite Hg, dict_get_app. simpl.
      destruct (dict_get k' (List.rev items)); [reflexivity|].
      destruct (String.eqb_spec k' k) as [->|Hne].
      * apply dict_get_set_same.
      * now apply dict_get_set_other.
Qed.

End Dicts.

Section Columns.

Context (G : Sqlglot).

Lemma columns_fold_defs (cols : list (string * Expression)) d0 :
  fold_left
    (fun acc column =>
       bind acc (fun d =>
       match arg_kind column with
       | Some kind => Return (dict_set (Exp.name column) kind d)
       | None => Raise (KeyError "kind")
       end))
    (map (fun c => ColumnDef (fst c) (snd c)) cols) (Return d0)
  = Return (fold_left (fun d item => dict_set (fst item) (snd item) d)
              cols d0).
Proof.
  revert d0. induction cols as [|[n k] cols IH]; intros d0; simpl;
    [reflexivity|apply IH].
Qed.

Lemma columns_fold_raise (es : list Expression) ex :
  fold_left
    (fun acc column =>
       bind acc (fun d =>
       match arg_kind column with
       | Some kind => Return (dict_set (Exp.name column) kind d)
       | None => Raise (KeyError "kind")
       end))
    es (Raise ex) = Raise ex.
Proof. induction es as [|e es IH]; simpl; auto. Qed.

Lemma columns_fold_missing (es : list Expression) acc :
  (exists e, In e es /\ arg_kind e = None) ->
  (forall ex, acc = Raise ex -> ex = KeyError "kind") ->
  fold_left
    (fun acc column =>
       bind acc (fun d =>
       match arg_kind column with
       | Some kind => Return (dict_set (Exp.name column) kind d)
       | None => Raise (KeyError "kind")
       end))
    es acc = Raise (KeyError "kind").
Proof.
  revert acc. induction es as [|e es IH]; intros acc (x & Hx & Hk) Hacc.
  - destruct Hx.
  - simpl. destruct Hx as [->|Hx].
    + destruct acc as [d|ex]; simpl.
      * rewrite Hk. apply columns_fold_raise.
      * rewrite (Hacc ex eq_refl). apply columns_fold_raise.
    + apply IH; [now exists x|].
      destruct acc as [d|ex]; simpl.
      * destruct (arg_kind e); [discriminate|]. now intros ex H; inversion H.
      * intros ex' H; inversion H; subst. now apply Hacc.
Qed.

(** Columns given as a schema: the result maps every column name to the
    type of the last column of that name, with no name twice; a schema
    element without a type makes the validator raise a KeyError. *)
Theorem columns_last_definition_wins :
  (forall cols : list (string * Expression),
     exists d,
       _columns_validator G
         (ColValue (PyExp (Schema (map (fun c => ColumnDef (fst c) (snd c))
                                     cols))))
       = Return (ColTyped d)
       /\ NoDup (map fst d)
       /\ forall n, dict_get n d = dict_get n (List.rev cols))
  /\ (forall es, (exists e, In e es /\ arg_kind e = None) ->
        _columns_validator G (ColValue (PyExp (Schema es)))
        = Raise (KeyError "kind")).
Proof.
  split.
  - intros cols.
    exists (fold_left (fun d item => dict_set (fst item) (snd item) d) cols []).
    destruct (dict_fill cols []) as [Hn Hg].
    split; [|split].
    + simpl. now rewrite columns_fold_defs.
    + apply Hn. constructor.
    + intros n. rewrite Hg. now destruct (dict_get n (List.rev cols)).
  - intros es He. simpl.
    rewrite (columns_fold_missing es (Return []) He); [reflexivity|].
    discriminate.
Qed.

End Columns.

Lemma columns_last_definition_wins_witness :
  _columns_validator Ref.sqlglot
    (ColValue (PyExp (Schema [ColumnDef "id" (DataType "INT");
                              Identifier "ds"])))
  = Raise (KeyError "kind").
Proof.
  destruct (columns_last_definition_wins Ref.sqlglot) as [_ H].
  apply H. exists (Identifier "ds"). split; [simpl; auto|reflexivity].
Defined.

(** ** Kind resolution and the order of the fields *)

Section Kinds.

Context (K : Kinds) (C : Croniter) (D : Dates) (G : Sqlglot).

Lemma find_member name n :
  In n (members K) -> value K n = name ->
  exists n', find (fun m => String.eqb (value K m) name) (members K) = Some n'
             /\ In n' (members K) /\ value K n' = name.
Proof.
  intros Hin Hv.
  destruct (find (fun m => String.eqb (value K m) name) (members K))
    as [n'|] eqn:E.
  - exists n'. apply find_some in E as [H1 H2].
    apply String.eqb_eq in H2. auto.
  - exfalso. apply (find_none _ _ E) in Hin.
    apply String.eqb_neq in Hin. contradiction.
Qed.

(** A name of the enumeration other than the two dedicated ones resolves to
    the same generic kind whether it comes as a bare text, as a parsed kind
    node that has no property other than [name] (whose value is replaced
    by the member that the head names), or as a dict that holds the name
    and nothing else; a bare text always resolves to a generic kind, also
    for the dedicated names. *)
Theorem generic_names_resolve_alike (n : ModelKindName K) :
  In n (members K) ->
  exists n',
    In n' (members K) /\ value K n' = value K n
    /\ _model_kind_validator K (KindValue (PyStr (value K n)))
       = Return (Generic n')
    /\ (value K n <> value K (INCREMENTAL_BY_TIME_RANGE K) ->
        value K n <> value K (INCREMENTAL_BY_UNIQUE_KEY K) ->
        (forall es,
           (forall p, In p es -> Exp.name p = "name") ->
           _model_kind_validator K
             (KindValue (PyExp (ModelKindExp (value K n) es)))
           = Return (Generic n'))
        /\ _model_kind_validator K (KindDict [("name", KwStr (value K n))])
           = Return (Generic n')).
Proof.
  intros Hin.
  destruct (find_member (value K n) n Hin eq_refl) as (n' & Hf & Hin' & Hv).
  exists n'. split; [exact Hin'|]. split; [exact Hv|]. split.
  - unfold _model_kind_validator, ModelKindName_call. simpl.
    rewrite Hf. reflexivity.
  - intros Htr Huk.
    apply String.eqb_neq in Htr, Huk. split.
    + intros es _. unfold _model_kind_validator, ModelKindName_call.
      rewrite Htr, Huk, Hf. simpl. unfold ModelKind_init.
      now rewrite dict_get_set_same.
    + unfold _model_kind_validator, kw_eq. simpl.
      rewrite Htr, Huk. unfold ModelKind_init. simpl. now rewrite Hf.
Qed.

(** A kind given otherwise than as a kind object, a dict or a parsed kind
    node never brings a time column: the record's kind is generic and its
    derived partition columns are just the explicit ones. *)
Theorem bare_kind_has_no_time_column (raw : RawModel K) m v :
  raw_kind K raw = Some (KindValue v) ->
  (forall this es, v <> PyExp (ModelKindExp this es)) ->
  ModelMeta_init K C D G raw = Return m ->
  (exists n, kind m = Generic n /\ str v = Return (value K n))
  /\ time_column m = None
  /\ partitioned_by m = unique (explicit m).
Proof.
  intros Hraw Hv Hm. apply ModelMeta_init_accepted in Hm.
  destruct Hm as ((_ & Hk & _) & _). unfold field_ok in Hk.
  rewrite Hraw in Hk.
  rewrite (_model_kind_validator_bare K v Hv) in Hk.
  assert (Hgen : exists n, kind m = Generic n /\ str v = Return (value K n)).
  { destruct (str v) as [text|] eqn:Es; simpl in Hk; [|discriminate].
    unfold ModelKindName_call in Hk.
    destruct (find (fun m0 => String.eqb (value K m0) text) (members K))
      as [n|] eqn:E; simpl in Hk; [|discriminate].
    inversion Hk. exists n. split; [reflexivity|].
    apply find_some in E as [_ E]. apply String.eqb_eq in E. now subst. }
  split; [exact Hgen|].
  destruct Hgen as (n & Hkind & _).
  unfold partitioned_by, time_column. rewrite Hkind. now split.
Qed.

(** The kind is validated before every field that can stop the
    constructor: an exception of the kind validator that pydantic does not
    catch is the one that the constructor raises, whatever the other
    fields hold.  So an unrecognized bare kind name always ends in its
    ConfigError. *)
Theorem kind_error_comes_first (raw : RawModel K) :
  (forall k e,
     raw_kind K raw = Some k ->
     _model_kind_validator K k = Raise e ->
     recorded_by_pydantic e = false ->
     ModelMeta_init K C D G raw = Raise e)
  /\ (forall v name,
        raw_kind K raw = Some (KindValue v) ->
        (forall this es, v <> PyExp (ModelKindExp this es)) ->
        str v = Return name -> unrecognized K name ->
        ModelMeta_init K C D G raw
        = Raise (ConfigError ("Invalid model kind '" ++ name ++ "'"))).
Proof.
  assert (H1 : forall k e,
             raw_kind K raw = Some k ->
             _model_kind_validator K k = Raise e ->
             recorded_by_pydantic e = false ->
             ModelMeta_init K C D G raw = Raise e).
  { intros k e Hraw Hk Hrec. unfold ModelMeta_init, validate_fields.
    destruct (field "name" (raw_name K raw) None str_field [])
      as [[n errors]|e0] eqn:F1.
    2:{ exfalso. exact (field_recorded _ _ _ _ _ _ str_field_recorded F1). }
    simpl. rewrite Hraw. unfold field at 1. now rewrite Hk, Hrec. }
  split; [exact H1|].
  intros v name Hraw Hv Hs Hu. apply (H1 (KindValue v)); [exact Hraw| |reflexivity].
  rewrite (_model_kind_validator_bare K v Hv), Hs. simpl.
  now rewrite (ModelKindName_call_unrecognized K name Hu).
Qed.

(** Only [name] is required: without it the constructor does not return;
    with a text for it and nothing else, the record holds the declared
    defaults. *)
Theorem only_name_is_required :
  (forall raw : RawModel K,
     raw_name K raw = None -> forall m, ModelMeta_init K C D G raw <> Return m)
  /\ (forall s,
        ModelMeta_init K C D G
          {| raw_name := Some (PyStr s); raw_kind := None;
             raw_dialect := None; raw_cron := None; raw_owner := None;
             raw_description := None; raw_start := None;
             raw_batch_size := None; raw_storage_format := None;
             raw_partitioned_by := None; raw_depends_on := None;
             raw_columns := None |}
        = Return {| name := s; kind := IncrementalByTimeRange_default K;
                    dialect := ""; cron := "@daily"; owner := None;
                    description := None; start := None; batch_size := None;
                    storage_format := None; partitioned_by_ := None;
                    depends_on_ := None; columns_to_types_ := None |}).
Proof.
  split.
  - intros raw Hraw m Hm. apply ModelMeta_init_accepted in Hm.
    destruct Hm as ((Hn & _) & _). unfold field_ok in Hn.
    rewrite Hraw in Hn. discriminate.
  - intros s. apply ModelMeta_init_accepted. split.
    + unfold fields_accepted, field_ok; simpl. repeat split.
    + unfold _kind_validator; simpl.
      now destruct (negb (is_materialized K (IncrementalByTimeRange_default K))).
Qed.

End Kinds.

Lemma generic_names_resolve_alike_witness :
  _model_kind_validator Ref.kinds (KindValue (PyStr "VIEW"))
  = Return (Generic Ref.VIEW)
  /\ _model_kind_validator Ref.kinds
       (KindValue (PyExp (ModelKindExp "VIEW"
                            [Property "name" (Some (Identifier "x"))])))
     = Return (Generic Ref.VIEW)
  /\ _model_kind_validator Ref.kinds (KindDict [("name", KwStr "VIEW")])
     = Return (Generic Ref.VIEW).
Proof.
  destruct (generic_names_resolve_alike Ref.kinds Ref.VIEW)
    as (n' & _ & Hv & Hb & Hrest); [simpl; auto|].
  destruct n'; try discriminate Hv.
  destruct Hrest as [Hnode Hdict]; [discriminate|discriminate|].
  split; [exact Hb|]. split; [|exact Hdict].
  apply Hnode. intros p [<-|[]]. reflexivity.
Defined.

Lemma bare_kind_has_no_time_column_witness :
  exists m,
    Ref.init (Ref.definition
                (Some (KindValue (PyStr "INCREMENTAL_BY_TIME_RANGE")))
                None None (Some (SeqList ["region"; "region"])))
    = Return m
    /\ time_column m = None
    /\ partitioned_by m = ["region"].
Proof.
  eexists. split; [vm_compute; reflexivity|].
  match goal with
  | |- time_column ?m = None /\ _ =>
      destruct (bare_kind_has_no_time_column Ref.kinds Ref.croniter Ref.dates
                  Ref.sqlglot
                  (Ref.definition
                     (Some (KindValue (PyStr "INCREMENTAL_BY_TIME_RANGE")))
                     None None (Some (SeqList ["region"; "region"])))
                  m (PyStr "INCREMENTAL_BY_TIME_RANGE"))
        as (_ & Ht & Hp);
        [reflexivity|discriminate|vm_compute; reflexivity|]
  end.
  split; [exact Ht|]. rewrite Hp. reflexivity.
Defined.

Lemma kind_error_comes_first_witness :
  Ref.init (Ref.definition (Some (KindValue (PyStr "TABLE")))
              (Some (PyStr "every day")) (Some (PyInt 0)) None)
  = Raise (ConfigError "Invalid model kind 'TABLE'").
Proof.
  apply (proj2 (kind_error_comes_first Ref.kinds Ref.croniter Ref.dates
                  Ref.sqlglot _) (PyStr "TABLE") "TABLE");
    [reflexivity|discriminate|reflexivity|].
  intros m [<-|[<-|[<-|[<-|[]]]]]; discriminate.
Defined.

Lemma only_name_is_required_witness :
    Ref.init {| raw_name := None;
                raw_kind := Some (KindObj (Generic Ref.FULL :
                                             Kind Ref.kinds));
                raw_dialect := None; raw_cron := None; raw_owner := None;
                raw_description := None; raw_start := None;
                raw_batch_size := None; raw_storage_format := None;
                raw_partitioned_by := None; raw_depends_on := None;
                raw_columns := None |} <> Return (Ref.model "@daily").
Proof.
  apply (proj1 (only_name_is_required Ref.kinds Ref.croniter Ref.dates
                  Ref.sqlglot)). reflexivity.
Defined.
